(** * The user-account model of foodsaving/users/models.py

    A shallow embedding of [UserManager] and [User]: the account record, the
    tables the methods read and write, the framework primitives they call
    (save, filter/delete/create/get, transaction.atomic) and the methods
    themselves, followed by the properties of the account life cycle. *)

From Stdlib Require Import String Ascii List ZArith Bool Arith Lia.
Import ListNotations.
Local Open Scope string_scope.
Local Open Scope list_scope.

(** ** Text *)

(** Python [str] values are modelled as Rocq strings, one character of
    the string for one character of the [str].  The functions below are
    Python's [str.upper], [str.lower], [str.strip] and the database's
    case-insensitive comparison on ASCII text, where they all agree; on
    other characters Python and the database backends go their own ways
    (more whitespace, longer case mappings), and the functions below leave
    such characters alone.  Every property that depends on them is
    therefore stated for ASCII text, [is_ascii]. *)
Module Text.

Definition is_ascii_char (c : ascii) : bool :=
  (nat_of_ascii c <? 128)%nat.

Fixpoint is_ascii (s : string) : bool :=
  match s with
  | EmptyString => true
  | String c t => is_ascii_char c && is_ascii t
  end.

Definition is_lower (c : ascii) : bool :=
  ((97 <=? nat_of_ascii c) && (nat_of_ascii c <=? 122))%nat.

Definition is_upper (c : ascii) : bool :=
  ((65 <=? nat_of_ascii c) && (nat_of_ascii c <=? 90))%nat.

Definition upper_char (c : ascii) : ascii :=
  if is_lower c then ascii_of_nat (nat_of_ascii c - 32) else c.

Definition lower_char (c : ascii) : ascii :=
  if is_upper c then ascii_of_nat (nat_of_ascii c + 32) else c.

(** The ASCII characters [str.strip()] removes: tab, line feed, vertical
    tab, form feed, carriage return, the four separators 28..31 and the
    space. *)
Definition is_space (c : ascii) : bool :=
  let n := nat_of_ascii c in
  (((9 <=? n) && (n <=? 13)) || ((28 <=? n) && (n <=? 32)))%nat.

Fixpoint upper (s : string) : string :=
  match s with
  | EmptyString => EmptyString
  | String c t => String (upper_char c) (upper t)
  end.

Fixpoint lower (s : string) : string :=
  match s with
  | EmptyString => EmptyString
  | String c t => String (lower_char c) (lower t)
  end.

Fixpoint lstrip (s : string) : string :=
  match s with
  | EmptyString => EmptyString
  | String c t => if is_space c then lstrip t else s
  end.

Fixpoint rstrip (s : string) : string :=
  match s with
  | EmptyString => EmptyString
  | String c t =>
      match rstrip t with
      | EmptyString => if is_space c then EmptyString else String c EmptyString
      | t' => String c t'
      end
  end.

Definition strip (s : string) : string := rstrip (lstrip s).

(** [s.rsplit('@', 1)] when it yields two parts: the text before the last
    '@' and the text after it; [None] when [s] holds no '@' (the unpacking
    into two names then raises). *)
Fixpoint rsplit_at (s : string) : option (string * string) :=
  match s with
  | EmptyString => None
  | String c t =>
      match rsplit_at t with
      | Some (a, b) => Some (String c a, b)
      | None => if Ascii.eqb c "@" then Some (EmptyString, t) else None
      end
  end.

(** Whether the NUL character is absent from a text; the database takes
    no value that holds one. *)
Fixpoint no_nul (s : string) : bool :=
  match s with
  | EmptyString => true
  | String c t => negb (Ascii.eqb c Ascii.zero) && no_nul t
  end.

(** The [iexact] lookup on ASCII text: equality after case folding on
    both sides. *)
Definition iexact (a b : string) : bool := String.eqb (upper a) (upper b).

End Text.

(** ** Data model *)

(** The purposes of a verification code ([VerificationCode.EMAIL_VERIFICATION]
    and its siblings). *)
Inductive CodeType : Set :=
| EMAIL_VERIFICATION
| PASSWORD_RESET
| ACCOUNT_DELETE.

Definition CodeType_eqb (a b : CodeType) : bool :=
  match a, b with
  | EMAIL_VERIFICATION, EMAIL_VERIFICATION => true
  | PASSWORD_RESET, PASSWORD_RESET => true
  | ACCOUNT_DELETE, ACCOUNT_DELETE => true
  | _, _ => false
  end.

(** A row of the verification-code table: owner, purpose, token. *)
Record VerificationCode : Set := mkCode {
  vc_user : nat;
  vc_type : CodeType;
  vc_code : nat
}.

(** A row of the group-membership table. *)
Record GroupMembership : Set := mkMembership {
  gm_group : nat;
  gm_user : nat
}.

(** The password column: [set_password] stores a one-way hash of the raw
    password, [set_unusable_password] a marker no raw password matches. *)
Inductive Password : Set :=
| Hashed (raw : string)
| Unusable.

(** The account.  The fields are those declared on [User], the password
    column inherited from [AbstractBaseUser], the primary key ([None] until
    the first save) and [mail]: not a column, but the instance attribute
    that [delete_] assigns ([None] while it was never assigned).  [photo]
    is the name of the photo field's file: [None] on an instance built
    without a photo and after the file was deleted, the empty string on an
    instance read from a row without photo.  [current_group] is the key of
    a group, taken to be a row of the group table. *)
Record User : Set := mkUser {
  pk : option nat;
  password : Password;
  email : option string;
  is_active : bool;
  is_staff : bool;
  is_superuser : bool;
  display_name : option string;
  description : string;
  language : string;
  mail_verified : bool;
  unverified_email : option string;
  mobile_number : string;
  deleted : bool;
  deleted_at : option Z;
  current_group : option nat;
  photo : option string;
  mail : option (option string)
}.

Definition set_pk (v : option nat) (u : User) : User :=
  mkUser v (password u) (email u) (is_active u) (is_staff u) (is_superuser u)
    (display_name u) (description u) (language u) (mail_verified u)
    (unverified_email u) (mobile_number u) (deleted u) (deleted_at u)
    (current_group u) (photo u) (mail u).

Definition set_password_field (v : Password) (u : User) : User :=
  mkUser (pk u) v (email u) (is_active u) (is_staff u) (is_superuser u)
    (display_name u) (description u) (language u) (mail_verified u)
    (unverified_email u) (mobile_number u) (deleted u) (deleted_at u)
    (current_group u) (photo u) (mail u).

Definition set_email (v : option string) (u : User) : User :=
  mkUser (pk u) (password u) v (is_active u) (is_staff u) (is_superuser u)
    (display_name u) (description u) (language u) (mail_verified u)
    (unverified_email u) (mobile_number u) (deleted u) (deleted_at u)
    (current_group u) (photo u) (mail u).

Definition set_is_active (v : bool) (u : User) : User :=
  mkUser (pk u) (password u) (email u) v (is_staff u) (is_superuser u)
    (display_name u) (description u) (language u) (mail_verified u)
    (unverified_email u) (mobile_number u) (deleted u) (deleted_at u)
    (current_group u) (photo u) (mail u).

Definition set_is_staff (v : bool) (u : User) : User :=
  mkUser (pk u) (password u) (email u) (is_active u) v (is_superuser u)
    (display_name u) (description u) (language u) (mail_verified u)
    (unverified_email u) (mobile_number u) (deleted u) (deleted_at u)
    (current_group u) (photo u) (mail u).

Definition set_is_superuser (v : bool) (u : User) : User :=
  mkUser (pk u) (password u) (email u) (is_active u) (is_staff u) v
    (display_name u) (description u) (language u) (mail_verified u)
    (unverified_email u) (mobile_number u) (deleted u) (deleted_at u)
    (current_group u) (photo u) (mail u).

Definition set_description (v : string) (u : User) : User :=
  mkUser (pk u) (password u) (email u) (is_active u) (is_staff u)
    (is_superuser u) (display_name u) v (language u) (mail_verified u)
    (unverified_email u) (mobile_number u) (deleted u) (deleted_at u)
    (current_group u) (photo u) (mail u).

Definition set_language (v : string) (u : User) : User :=
  mkUser (pk u) (password u) (email u) (is_active u) (is_staff u)
    (is_superuser u) (display_name u) (description u) v (mail_verified u)
    (unverified_email u) (mobile_number u) (deleted u) (deleted_at u)
    (current_group u) (photo u) (mail u).

Definition set_mail_verified (v : bool) (u : User) : User :=
  mkUser (pk u) (password u) (email u) (is_active u) (is_staff u)
    (is_superuser u) (display_name u) (description u) (language u) v
    (unverified_email u) (mobile_number u) (deleted u) (deleted_at u)
    (current_group u) (photo u) (mail u).

Definition set_unverified_email (v : option string) (u : User) : User :=
  mkUser (pk u) (password u) (email u) (is_active u) (is_staff u)
    (is_superuser u) (display_name u) (description u) (language u)
    (mail_verified u) v (mobile_number u) (deleted u) (deleted_at u)
    (current_group u) (photo u) (mail u).

Definition set_mobile_number (v : string) (u : User) : User :=
  mkUser (pk u) (password u) (email u) (is_active u) (is_staff u)
    (is_superuser u) (display_name u) (description u) (language u)
    (mail_verified u) (unverified_email u) v (deleted u) (deleted_at u)
    (current_group u) (photo u) (mail u).

Definition set_deleted (v : bool) (u : User) : User :=
  mkUser (pk u) (password u) (email u) (is_active u) (is_staff u)
    (is_superuser u) (display_name u) (description u) (language u)
    (mail_verified u) (unverified_email u) (mobile_number u) v (deleted_at u)
    (current_group u) (photo u) (mail u).

Definition set_deleted_at (v : option Z) (u : User) : User :=
  mkUser (pk u) (password u) (email u) (is_active u) (is_staff u)
    (is_superuser u) (display_name u) (description u) (language u)
    (mail_verified u) (unverified_email u) (mobile_number u) (deleted u) v
    (current_group u) (photo u) (mail u).

Definition set_photo (v : option string) (u : User) : User :=
  mkUser (pk u) (password u) (email u) (is_active u) (is_staff u)
    (is_superuser u) (display_name u) (description u) (language u)
    (mail_verified u) (unverified_email u) (mobile_number u) (deleted u)
    (deleted_at u) (current_group u) v (mail u).

Definition set_mail (v : option (option string)) (u : User) : User :=
  mkUser (pk u) (password u) (email u) (is_active u) (is_staff u)
    (is_superuser u) (display_name u) (description u) (language u)
    (mail_verified u) (unverified_email u) (mobile_number u) (deleted u)
    (deleted_at u) (current_group u) (photo u) v.

(** What a save writes, and what reading the row back gives: the
    columns, without the stray attribute.  A photo field without a name is
    written as the empty name (the file column stores [str(file)]), so an
    instance read back never has the name [None]. *)
Definition to_row (u : User) : User :=
  set_mail None
    (set_photo (Some (match photo u with Some name => name | None => "" end))
       u).

(** A file of the photo storage: the original upload or one of the
    renditions generated from it. *)
Inductive FileKind : Set :=
| Original
| Rendition (size : nat).

Record StoredFile : Set := mkFile {
  sf_name : string;
  sf_kind : FileKind
}.

(** What is handed to the mailer: the template, the account it is prepared
    for and, for the verification mail, the code that goes with it (the
    welcome mail passes the code row, the re-sent mail its token). *)
Inductive MailArg : Set :=
| NoArg
| CodeRow (c : VerificationCode)
| CodeToken (t : nat)
| Url (path : string) (t : nat).

Record Mail : Set := mkMail {
  template : string;
  recipient : User;
  arg : MailArg
}.

(** The relational store. *)
Record Database : Set := mkDb {
  users : list User;
  codes : list VerificationCode;
  memberships : list GroupMembership
}.

(** Everything a method can touch: the database, the photo storage, the
    mails handed to the mailer, the wall clock read by [timezone.now()] and
    the supply of tokens for new verification codes. *)
Record World : Set := mkWorld {
  db : Database;
  storage : list StoredFile;
  outbox : list Mail;
  clock : Z;
  tokens : nat
}.

Definition with_db (d : Database) (w : World) : World :=
  mkWorld d (storage w) (outbox w) (clock w) (tokens w).

Definition with_clock (t : Z) (w : World) : World :=
  mkWorld (db w) (storage w) (outbox w) t (tokens w).

(** ** Effects *)

(** The exceptions the methods can raise. *)
Inductive Error : Set :=
| ValueError
| TypeError
| DoesNotExist
| MultipleObjectsReturned
| IntegrityError
| DataError.

Inductive Result (A : Type) : Type :=
| Ok (a : A)
| Err (e : Error).
Arguments Ok {A} a.
Arguments Err {A} e.

(** A method is a function of the world that returns a value or raises,
    and leaves a new world either way.  The instance a method works on is
    passed in and handed back in the value; when the method raises, the
    model says what has become of the world and is silent about the
    instance, which in Python keeps the attributes assigned before the
    exception. *)
Definition M (A : Type) : Type := World -> Result A * World.

Definition ret {A : Type} (a : A) : M A := fun w => (Ok a, w).

Definition raise {A : Type} (e : Error) : M A := fun w => (Err e, w).

Definition bind {A B : Type} (m : M A) (k : A -> M B) : M B :=
  fun w =>
    match m w with
    | (Ok a, w') => k a w'
    | (Err e, w') => (Err e, w')
    end.

Notation "x <- m ;; k" := (bind m (fun x => k))
  (at level 61, m at next level, right associativity).
Notation "m ;;; k" := (bind m (fun _ => k))
  (at level 61, right associativity).

(** [@transaction.atomic]: when the body raises, the database is put back
    as it was on entry and the exception goes on to the caller.  Mails
    already handed over and files already removed are not part of it. *)
Definition atomic {A : Type} (body : M A) : M A :=
  fun w =>
    match body w with
    | (Ok a, w') => (Ok a, w')
    | (Err e, w') => (Err e, with_db (db w) w')
    end.

Fixpoint for_each {A : Type} (l : list A) (body : A -> M unit) : M unit :=
  match l with
  | [] => ret tt
  | a :: t => body a ;;; for_each t body
  end.

(** [timezone.now()] *)
Definition timezone_now : M Z := fun w => (Ok (clock w), w).

(** ** The tables *)

Definition option_nat_eqb (a b : option nat) : bool :=
  match a, b with
  | Some x, Some y => Nat.eqb x y
  | None, None => true
  | _, _ => false
  end.

Definition is_some {A : Type} (o : option A) : bool :=
  match o with Some _ => true | None => false end.

(** Whether a row of a table that refers to a user refers to [self]: the
    comparison is on the primary key, which an unsaved instance lacks. *)
Definition refers_to (self : User) (user_id : nat) : bool :=
  option_nat_eqb (pk self) (Some user_id).

Definition code_matches (self : User) (t : CodeType) (c : VerificationCode)
  : bool :=
  refers_to self (vc_user c) && CodeType_eqb (vc_type c) t.

(** Modelled from the spec: the verification-code store of
    [foodsaving.userauth.models], which is not part of the sources read
    here.  [VerificationCode.objects.filter(user=, type=).delete()] removes
    every code of that user and purpose. *)
Definition codes_filter_delete (self : User) (t : CodeType) : M unit :=
  fun w =>
    let d := db w in
    (Ok tt,
     with_db (mkDb (users d)
                   (filter (fun c => negb (code_matches self t c)) (codes d))
                   (memberships d)) w).

(** Modelled from the spec: [VerificationCode.objects.create(user=, type=)]
    stores a new code with a token taken from the supply; an unsaved user
    cannot be referred to and the call raises. *)
Definition codes_create (self : User) (t : CodeType) : M VerificationCode :=
  fun w =>
    match pk self with
    | None => (Err ValueError, w)
    | Some k =>
        let d := db w in
        let c := mkCode k t (tokens w) in
        (Ok c,
         mkWorld (mkDb (users d) (codes d ++ [c]) (memberships d))
                 (storage w) (outbox w) (clock w) (S (tokens w)))
    end.

(** Modelled from the spec: [VerificationCode.objects.get(user=, type=)]
    returns the one pending code and raises when there is none (or more
    than one). *)
Definition codes_get (self : User) (t : CodeType) : M VerificationCode :=
  fun w =>
    match filter (code_matches self t) (codes (db w)) with
    | [] => (Err DoesNotExist, w)
    | [c] => (Ok c, w)
    | _ => (Err MultipleObjectsReturned, w)
    end.

(** Modelled from the spec: [Group.objects.filter(members__in=[self])], the
    join of the groups with their membership rows; each membership row of
    the user contributes the group it names. *)
Definition groups_filter_members (self : User) : M (list nat) :=
  fun w =>
    (Ok (map gm_group
           (filter (fun m => refers_to self (gm_user m)) (memberships (db w)))),
     w).

(** Modelled from the spec:
    [GroupMembership.objects.filter(group=, user=).delete()]. *)
Definition memberships_filter_delete (group : nat) (self : User) : M unit :=
  fun w =>
    let d := db w in
    (Ok tt,
     with_db (mkDb (users d) (codes d)
                   (filter (fun m => negb (Nat.eqb (gm_group m) group
                                           && refers_to self (gm_user m)))
                           (memberships d))) w).

(** Modelled from the spec: [prepare_email(...).send()] and
    [prepare_mailverification_email(...).send()] of
    [foodsaving.utils.email_utils] hand one mail to the mailer. *)
Definition send (m : Mail) : M unit :=
  fun w =>
    (Ok tt, mkWorld (db w) (storage w) (outbox w ++ [m]) (clock w) (tokens w)).

(** *** The user table *)

Definition option_string_eqb (a b : option string) : bool :=
  match a, b with
  | Some x, Some y => String.eqb x y
  | None, None => true
  | _, _ => false
  end.

(** [email = EmailField(unique=True, null=True)]: another row with the same
    non-null email, compared as stored, blocks the write. *)
Definition email_taken (u : User) (rows : list User) : bool :=
  match email u with
  | None => false
  | Some e =>
      existsb (fun r => negb (option_nat_eqb (pk r) (pk u))
                        && option_string_eqb (email r) (Some e)) rows
  end.

(** Modelled from the spec: [settings.NAME_MAX_LENGTH], the bound of
    [display_name].  The settings module is not among the sources; the 80
    here is the [MAX_DISPLAY_NAME_LENGTH] that models.py itself declares.
    No general proof depends on the value. *)
Definition NAME_MAX_LENGTH : nat := 80.

Definition clean (o : option string) : bool :=
  match o with
  | Some s => Text.no_nul s
  | None => true
  end.

(** The text values of the row are free of NUL.  The database driver
    refuses a text that holds one with ValueError, before anything is
    sent. *)
Definition text_ok (u : User) : bool :=
  clean (email u) && clean (unverified_email u) && clean (display_name u)
  && Text.no_nul (description u) && Text.no_nul (language u)
  && Text.no_nul (mobile_number u) && clean (photo u).

Definition fits (n : nat) (o : option string) : bool :=
  match o with
  | Some s => (String.length s <=? n)%nat
  | None => true
  end.

(** The declared lengths of the columns: 254 for the two [EmailField]s,
    [NAME_MAX_LENGTH] for [display_name], 7 for [language], 255 for
    [mobile_number], 100 for the name of the photo.  The database
    (PostgreSQL) refuses a longer value with DataError. *)
Definition lengths_ok (u : User) : bool :=
  fits 254 (email u) && fits 254 (unverified_email u)
  && fits NAME_MAX_LENGTH (display_name u)
  && (String.length (language u) <=? 7)%nat
  && (String.length (mobile_number u) <=? 255)%nat
  && fits 100 (photo u).

(** The integrity constraints the methods can run into: [display_name] is
    not nullable and [email] is unique; a violation is an
    IntegrityError. *)
Definition integrity_ok (u : User) (rows : list User) : bool :=
  is_some (display_name u) && negb (email_taken u rows).

(** The values of the row are ones its columns take. *)
Definition values_ok (u : User) : bool := text_ok u && lengths_ok u.

(** The row can be written. *)
Definition constraints_ok (u : User) (rows : list User) : bool :=
  values_ok u && integrity_ok u rows.

Definition pk_or_zero (r : User) : nat :=
  match pk r with Some k => k | None => 0 end.

(** The key the database hands to a new row: one no row carries. *)
Definition fresh_pk (rows : list User) : nat :=
  S (list_max (map pk_or_zero rows)).

Definition same_pk (k : nat) (r : User) : bool :=
  option_nat_eqb (pk r) (Some k).

(** [Model.save()]: an instance with a key updates its row and is inserted
    when no row has that key; an instance without one is inserted under a
    fresh key.  A text with a NUL character raises ValueError, a value
    too long for its column DataError, a violated integrity constraint
    IntegrityError, and nothing is written. *)
Definition save (self : User) : M User :=
  fun w =>
    let d := db w in
    let rows := users d in
    if negb (text_ok self) then (Err ValueError, w)
    else if negb (lengths_ok self) then (Err DataError, w)
    else if integrity_ok self rows then
      match pk self with
      | Some k =>
          if existsb (same_pk k) rows then
            (Ok self,
             with_db (mkDb (map (fun r => if same_pk k r then to_row self
                                          else r) rows)
                           (codes d) (memberships d)) w)
          else
            (Ok self,
             with_db (mkDb (rows ++ [to_row self]) (codes d) (memberships d))
                     w)
      | None =>
          let self' := set_pk (Some (fresh_pk rows)) self in
          (Ok self',
           with_db (mkDb (rows ++ [to_row self']) (codes d) (memberships d))
                   w)
      end
    else (Err IntegrityError, w).

(** The photo field.  [delete_all_created_images] removes the renditions
    made from the stored photo; it derives their folders from the name of
    the file and raises TypeError when there is no name, as on an instance
    built without a photo or one whose photo was just deleted; with the
    empty name of a row read back without photo there is nothing to
    remove.  [delete(save=False)] does nothing on a field without file
    (no name, or the empty one); otherwise it removes the original and
    leaves the field without name. *)
Definition is_rendition (k : FileKind) : bool :=
  match k with Rendition _ => true | Original => false end.

Definition photo_delete_all_created_images (self : User) : M unit :=
  fun w =>
    match photo self with
    | None => (Err TypeError, w)
    | Some EmptyString => (Ok tt, w)
    | Some name =>
        (Ok tt,
         mkWorld (db w)
                 (filter (fun f => negb (String.eqb (sf_name f) name
                                         && is_rendition (sf_kind f)))
                         (storage w))
                 (outbox w) (clock w) (tokens w))
    end.

Definition photo_delete (self : User) : M User :=
  fun w =>
    match photo self with
    | None => (Ok self, w)
    | Some EmptyString => (Ok self, w)
    | Some name =>
        (Ok (set_photo None self),
         mkWorld (db w)
                 (filter (fun f => negb (String.eqb (sf_name f) name
                                         && negb (is_rendition (sf_kind f))))
                         (storage w))
                 (outbox w) (clock w) (tokens w))
    end.

(** [AbstractBaseUser.set_password]: a raw password is hashed, [None] gives
    an unusable password. *)
Definition set_password (raw : option string) (self : User) : User :=
  set_password_field
    (match raw with Some p => Hashed p | None => Unusable end) self.

Definition set_unusable_password (self : User) : User :=
  set_password_field Unusable self.

(** [BaseUserManager.normalize_email]: the surrounding whitespace is
    stripped and the domain part lowercased when the address holds an '@';
    otherwise the address is returned as given. *)
Definition normalize_email (email : string) : string :=
  match Text.rsplit_at (Text.strip email) with
  | Some (email_name, domain_part) =>
      (email_name ++ "@" ++ Text.lower domain_part)%string
  | None => email
  end.

(** ** UserManager *)

(** The keyword arguments [**extra_fields]: for each field of the model
    a caller may pass, the primary key among them, the value passed or
    [None] when the keyword is absent.  [email], [password],
    [display_name] and [is_active] are parameters of their own and cannot
    occur among them.  The columns [User] inherits from [BaseModel] and
    [LocationModel] are declared outside models.py and no method here
    reads or assigns them: they are left out of the account and so of the
    keyword arguments. *)
Record ExtraFields : Set := mkExtra {
  xf_pk : option (option nat);
  xf_is_staff : option bool;
  xf_is_superuser : option bool;
  xf_description : option string;
  xf_language : option string;
  xf_mail_verified : option bool;
  xf_unverified_email : option (option string);
  xf_mobile_number : option string;
  xf_deleted : option bool;
  xf_deleted_at : option (option Z);
  xf_current_group : option (option nat);
  xf_photo : option (option string)
}.

Definition no_extra_fields : ExtraFields :=
  mkExtra None None None None None None None None None None None None.

(** [extra_fields['unverified_email'] = email] *)
Definition xf_put_unverified_email (v : option string) (x : ExtraFields)
  : ExtraFields :=
  mkExtra (xf_pk x) (xf_is_staff x) (xf_is_superuser x) (xf_description x)
    (xf_language x) (xf_mail_verified x) (Some v) (xf_mobile_number x)
    (xf_deleted x) (xf_deleted_at x) (xf_current_group x) (xf_photo x).

Definition or_default {A : Type} (o : option A) (d : A) : A :=
  match o with Some a => a | None => d end.

(** [self.model(email=, is_active=, display_name=, **extra_fields)]: a new
    instance, unsaved unless a key was passed; a field no keyword names
    takes its declared default.
    The password is set on the next line of the caller. *)
Definition model (email : option string) (is_active : bool)
    (display_name : option string) (x : ExtraFields) : User :=
  mkUser (or_default (xf_pk x) None) Unusable email is_active
    (or_default (xf_is_staff x) false)
    (or_default (xf_is_superuser x) false)
    display_name
    (or_default (xf_description x) "")
    (or_default (xf_language x) "en")
    (or_default (xf_mail_verified x) false)
    (or_default (xf_unverified_email x) None)
    (or_default (xf_mobile_number x) "")
    (or_default (xf_deleted x) false)
    (or_default (xf_deleted_at x) None)
    (or_default (xf_current_group x) None)
    (or_default (xf_photo x) None)
    None.

Definition _validate_email (email : option string) : M string :=
  match email with
  | None => raise ValueError
  | Some e => ret (normalize_email e)
  end.

(** ** User *)

Definition delete_photo (self : User) : M User :=
  photo_delete_all_created_images self ;;;
  photo_delete self.

Definition verify_mail (self : User) : M User :=
  atomic (
    codes_filter_delete self EMAIL_VERIFICATION ;;;
    let self := set_email (unverified_email self) self in
    let self := set_mail_verified true self in
    save self).

Definition _unverify_mail (self : User) : M User :=
  atomic (
    codes_filter_delete self EMAIL_VERIFICATION ;;;
    _ <- codes_create self EMAIL_VERIFICATION ;;
    let self := set_mail_verified false self in
    save self).

Definition _send_mail_change_notification (self : User) : M unit :=
  send (mkMail "changemail_notice" self NoArg).

Definition _send_welcome_mail (self : User) : M User :=
  self <- _unverify_mail self ;;
  verification_code <- codes_get self EMAIL_VERIFICATION ;;
  send (mkMail "mailverification" self (CodeRow verification_code)) ;;;
  ret self.

Definition send_mail_verification_code (self : User) : M User :=
  atomic (
    self <- _unverify_mail self ;;
    verification_code <- codes_get self EMAIL_VERIFICATION ;;
    send (mkMail "mailverification" self
            (CodeToken (vc_code verification_code))) ;;;
    ret self).

Definition update_email (unverified_email : option string) (self : User)
  : M User :=
  atomic (
    let self := set_unverified_email unverified_email self in
    _send_mail_change_notification self ;;;
    send_mail_verification_code self).

Definition restore_email (self : User) : M User :=
  atomic (
    codes_filter_delete self EMAIL_VERIFICATION ;;;
    let self := set_unverified_email (email self) self in
    let self := set_mail_verified true self in
    save self).

(** No decorator and no save: the assignment is all there is. *)
Definition update_language (language : string) (self : User) : M User :=
  ret (set_language language self).

Definition send_account_deletion_verification_code (self : User) : M User :=
  atomic (
    codes_filter_delete self ACCOUNT_DELETE ;;;
    c <- codes_create self ACCOUNT_DELETE ;;
    send (mkMail "accountdelete_request" self
            (Url "/#/user/delete?code=" (vc_code c))) ;;;
    ret self).

Definition reset_password (self : User) : M User :=
  atomic (
    codes_filter_delete self PASSWORD_RESET ;;;
    _ <- codes_create self PASSWORD_RESET ;;
    c <- codes_get self PASSWORD_RESET ;;
    send (mkMail "passwordreset" self
            (Url "/#/password/reset?code=" (vc_code c))) ;;;
    ret self).

Definition change_password (new_password : option string) (self : User)
  : M User :=
  atomic (
    let self := set_password new_password self in
    self <- save self ;;
    send (mkMail "passwordchange" self NoArg) ;;;
    codes_filter_delete self PASSWORD_RESET ;;;
    ret self).

Definition delete_ (self : User) : M User :=
  atomic (
    groups <- groups_filter_members self ;;
    for_each groups (fun g => memberships_filter_delete g self) ;;;
    let self := set_description "" self in
    let self := set_unusable_password self in
    let self := set_mail (Some None) self in
    let self := set_is_active false self in
    let self := set_is_staff false self in
    let self := set_mail_verified false self in
    let self := set_unverified_email None self in
    now <- timezone_now ;;
    let self := set_deleted_at (Some now) self in
    let self := set_deleted true self in
    self <- delete_photo self ;;
    self <- save self ;;
    send (mkMail "accountdelete_success" self NoArg) ;;;
    ret self).

Definition has_perm (self : User) : bool := is_superuser self.

Definition has_module_perms (self : User) : bool := is_superuser self.

(** ** UserManager, continued *)

Definition _create_user (email : option string) (password : option string)
    (display_name : option string) (is_active : bool)
    (extra_fields : ExtraFields) : M User :=
  atomic (
    email <- _validate_email email ;;
    let extra_fields := xf_put_unverified_email (Some email) extra_fields in
    let user := model (Some email) is_active display_name extra_fields in
    let user := set_password password user in
    user <- save user ;;
    _send_welcome_mail user).

(** The lookup [email__iexact=key] on one row: a null email matches no
    key. *)
Definition email_iexact (key : string) (r : User) : bool :=
  match email r with
  | Some e => Text.iexact e key
  | None => false
  end.

(** [self.get(email__iexact=email)]: the one row whose email equals the
    argument up to case. *)
Definition get_by_natural_key (email : string) : M User :=
  fun w =>
    match filter (email_iexact email) (users (db w)) with
    | [] => (Err DoesNotExist, w)
    | [r] => (Ok r, w)
    | _ => (Err MultipleObjectsReturned, w)
    end.

Definition filter_by_similar_email (email : string) : M (list User) :=
  fun w =>
    (Ok (filter (email_iexact email) (users (db w))), w).

Definition active : M (list User) :=
  fun w =>
    (Ok (filter (fun r => negb (deleted r) && is_active r) (users (db w))), w).

Definition create_user (email : option string) (password : option string)
    (display_name : option string) (is_active : bool)
    (extra_fields : ExtraFields) : M User :=
  _create_user email password display_name is_active extra_fields.

Definition create_superuser (email : option string) (password : option string)
    (is_active : bool) (extra_fields : ExtraFields) : M User :=
  user <- _create_user email password email is_active extra_fields ;;
  let user := set_is_superuser true user in
  let user := set_is_staff true user in
  save user.

(** ** Observations *)

(** The pending codes of an account for one purpose, and their number. *)
Definition pending_codes (self : User) (t : CodeType) (w : World)
  : list VerificationCode :=
  filter (code_matches self t) (codes (db w)).

Definition count_codes (self : User) (t : CodeType) (w : World) : nat :=
  length (pending_codes self t w).

(** The group memberships of an account. *)
Definition memberships_of (self : User) (w : World) : list GroupMembership :=
  filter (fun m => refers_to self (gm_user m)) (memberships (db w)).

(** The row stored for an account. *)
Definition stored_row (self : User) (w : World) : option User :=
  match pk self with
  | Some k => find (same_pk k) (users (db w))
  | None => None
  end.

(** The files kept for a photo: the original and its renditions. *)
Definition files_of (name : string) (w : World) : list StoredFile :=
  filter (fun f => String.eqb (sf_name f) name) (storage w).

(** The user table after [save] wrote [self] into [rows]. *)
Definition saved_rows (self : User) (rows : list User) : list User :=
  match pk self with
  | Some k =>
      if existsb (same_pk k) rows
      then map (fun r => if same_pk k r then to_row self else r) rows
      else rows ++ [to_row self]
  | None => rows ++ [to_row (set_pk (Some (fresh_pk rows)) self)]
  end.

Definition put_users (rows : list User) (w : World) : World :=
  with_db (mkDb rows (codes (db w)) (memberships (db w))) w.

(** The calls of one account's life after its creation. *)
Inductive Operation : Set :=
| VerifyMail
| UnverifyMail
| UpdateEmail (unverified_email : option string)
| RestoreEmail
| UpdateLanguage (language : string)
| SendMailVerificationCode
| SendAccountDeletionVerificationCode
| ResetPassword
| ChangePassword (new_password : option string)
| Delete.

Definition run (op : Operation) (self : User) : M User :=
  match op with
  | VerifyMail => verify_mail self
  | UnverifyMail => _unverify_mail self
  | UpdateEmail e => update_email e self
  | RestoreEmail => restore_email self
  | UpdateLanguage l => update_language l self
  | SendMailVerificationCode => send_mail_verification_code self
  | SendAccountDeletionVerificationCode =>
      send_account_deletion_verification_code self
  | ResetPassword => reset_password self
  | ChangePassword p => change_password p self
  | Delete => delete_ self
  end.


(** [n] calls of [reset_password] in a row. *)
Fixpoint reset_password_times (n : nat) (self : User) : M User :=
  match n with
  | O => ret self
  | S n' => self <- reset_password self ;; reset_password_times n' self
  end.

(** ** UserManager and User, the remaining methods *)

(** Modelled from the spec: [EmailEvent.objects.ignored_addresses()] of
    [foodsaving.webhooks.models], the addresses on the bounce list, is
    taken as the argument [ignored_addresses].
    [unverified_or_ignored] is then
    [self.filter(Q(mail_verified=False) | Q(email__in=ignored_addresses))];
    a null email is in no list. *)
Definition email_in (addresses : list string) (r : User) : bool :=
  match email r with
  | Some e => existsb (String.eqb e) addresses
  | None => false
  end.

Definition unverified_or_ignored (ignored_addresses : list string)
  : M (list User) :=
  fun w =>
    (Ok (filter (fun r => negb (mail_verified r)
                          || email_in ignored_addresses r)
           (users (db w))), w).

Definition get_full_name (self : User) : option string := display_name self.

Definition get_short_name (self : User) : option string := display_name self.

(** Two strings with whitespace at the same places. *)
Inductive same_spaces : string -> string -> Prop :=
| same_spaces_nil : same_spaces EmptyString EmptyString
| same_spaces_cons : forall c c' t t',
    Text.is_space c = Text.is_space c' ->
    same_spaces t t' ->
    same_spaces (String c t) (String c' t').

(** ** Closed forms of the results *)

(** The codes left after the codes of purpose [t] were replaced by a new
    one. *)
Definition reissued (self : User) (k : nat) (t : CodeType) (w : World)
  : list VerificationCode :=
  filter (fun c => negb (code_matches self t c)) (codes (db w))
  ++ [mkCode k t (tokens w)].

(** The membership rows left by the loop over [groups]. *)
Definition without_memberships (self : User) (groups : list nat)
    (ms : list GroupMembership) : list GroupMembership :=
  filter (fun m => negb (existsb (Nat.eqb (gm_group m)) groups
                         && refers_to self (gm_user m))) ms.

(** The name of the photo field after [delete_photo] went through: the
    empty name stays, a file name is gone with its file. *)
Definition photo_after_delete (p : option string) : option string :=
  match p with
  | Some EmptyString => Some EmptyString
  | _ => None
  end.

(** The account as [delete_] leaves it, at time [now]: every assignment of
    the method applied to the fields it names.  [email] is not among
    them. *)
Definition scrubbed (now : Z) (self : User) : User :=
  mkUser (pk self) Unusable (email self) false false (is_superuser self)
    (display_name self) "" (language self) false None (mobile_number self)
    true (Some now) (current_group self) (photo_after_delete (photo self))
    (Some None).

(** The photo storage after [delete_photo]. *)
Definition storage_without_photo (self : User) (w : World) : list StoredFile :=
  match photo self with
  | None => storage w
  | Some EmptyString => storage w
  | Some name =>
      filter (fun f => negb (String.eqb (sf_name f) name
                             && negb (is_rendition (sf_kind f))))
        (filter (fun f => negb (String.eqb (sf_name f) name
                                && is_rendition (sf_kind f)))
           (storage w))
  end.

(** No stored email equals [key] up to case. *)
Definition email_unused (key : string) (w : World) : Prop :=
  forall r, In r (users (db w)) -> email_iexact key r = false.

(** Every stored email is ASCII text. *)
Definition ascii_emails (w : World) : Prop :=
  forall r e, In r (users (db w)) -> email r = Some e ->
              Text.is_ascii e = true.

(** The instance [save] hands back: the one it was given, under a fresh
    key if it had none. *)
Definition keyed (self : User) (rows : list User) : User :=
  match pk self with
  | Some _ => self
  | None => set_pk (Some (fresh_pk rows)) self
  end.

(** The exception of a [save] that cannot write. *)
Definition save_error (self : User) : Error :=
  if text_ok self then
    if lengths_ok self then IntegrityError else DataError
  else ValueError.

(** The key under which [_create_user] stores the account: the one
    passed among the keyword arguments, a fresh one otherwise. *)
Definition new_key (extra : ExtraFields) (rows : list User) : nat :=
  match or_default (xf_pk extra) None with
  | Some k => k
  | None => fresh_pk rows
  end.

(** The instance [_create_user] builds and saves first. *)
Definition new_user (email : string) (password : option string)
    (display_name : option string) (is_active : bool) (extra : ExtraFields)
  : User :=
  set_password password
    (model (Some (normalize_email email)) is_active display_name
       (xf_put_unverified_email (Some (normalize_email email)) extra)).

(** The account [_create_user] returns. *)
Definition created (email : string) (password : option string)
    (display_name : option string) (is_active : bool) (extra : ExtraFields)
    (key : nat) : User :=
  set_mail_verified false
    (set_pk (Some key)
       (set_password password
          (model (Some (normalize_email email)) is_active display_name
             (xf_put_unverified_email (Some (normalize_email email)) extra)))).

(** ** Fixtures *)

(** A verified staff account with a photo, in two groups, and the world
    that holds it. *)
Definition ann : User :=
  mkUser (Some 1) (Hashed "secret") (Some "ann@x.com") true true false
    (Some "Ann") "I like carrots" "en" true (Some "ann@x.com") "" false None
    None (Some "ann.jpg") None.

Definition ann_world : World :=
  mkWorld
    (mkDb [ann] []
       [mkMembership 10 1; mkMembership 11 1; mkMembership 10 2])
    [mkFile "ann.jpg" Original; mkFile "ann.jpg" (Rendition 100);
     mkFile "ann.jpg" (Rendition 400); mkFile "bob.jpg" Original]
    [] 500%Z 0.

Definition empty_world : World := mkWorld (mkDb [] [] []) [] [] 0%Z 0.

(** A second account, saved next to [ann] and read from its row,
    without photo, unverified and waiting for the address [ann] holds. *)
Definition bob : User :=
  mkUser (Some 2) (Hashed "hunter2") (Some "bob@x.com") true false false
    (Some "Bob") "" "en" false (Some "ann@x.com") "" false None None
    (Some "") None.

Definition two_world : World :=
  mkWorld
    (mkDb [ann; bob]
       [mkCode 2 EMAIL_VERIFICATION 40; mkCode 1 PASSWORD_RESET 41;
        mkCode 2 ACCOUNT_DELETE 42]
       [mkMembership 10 1; mkMembership 11 1; mkMembership 10 2])
    [mkFile "ann.jpg" Original; mkFile "ann.jpg" (Rendition 100);
     mkFile "bob.jpg" Original]
    [] 700%Z 43.

(** An address of 255 characters, one more than the email columns
    hold. *)
Definition long_address : string :=
  (string_of_list_ascii (repeat "a"%char 249) ++ "@x.com")%string.

(** * Properties *)

(** Goals and hypotheses on the values of a row, taken apart column by
    column. *)
Ltac split_andb :=
  repeat match goal with
         | H : _ && _ = true |- _ => apply andb_true_iff in H; destruct H
         end.

Ltac by_columns :=
  unfold values_ok, text_ok, lengths_ok in *;
  cbn [email unverified_email display_name description language
       mobile_number photo clean fits Text.no_nul] in *;
  split_andb;
  repeat (apply andb_true_iff; split);
  try assumption; try reflexivity.

Ltac unfold_methods :=
  unfold verify_mail, _unverify_mail, update_email, restore_email,
    update_language, send_mail_verification_code, _send_welcome_mail,
    send_account_deletion_verification_code, reset_password, change_password,
    _send_mail_change_notification,
    atomic, bind, ret, raise, codes_filter_delete, codes_create, codes_get,
    send, timezone_now.

(** ** Basic facts *)

Lemma with_db_same (w : World) : with_db (db w) w = w.
Proof. destruct w; reflexivity. Qed.

Lemma option_nat_eqb_refl (a : option nat) : option_nat_eqb a a = true.
Proof. destruct a; simpl; auto using Nat.eqb_refl. Qed.

Lemma option_nat_eqb_eq (a b : option nat) :
  option_nat_eqb a b = true <-> a = b.
Proof.
  destruct a, b; simpl; split; intro H; try discriminate; auto.
  - apply Nat.eqb_eq in H. now subst.
  - injection H as ->. apply Nat.eqb_refl.
Qed.

Lemma CodeType_eqb_refl (t : CodeType) : CodeType_eqb t t = true.
Proof. destruct t; reflexivity. Qed.

Lemma CodeType_eqb_eq (a b : CodeType) : CodeType_eqb a b = true <-> a = b.
Proof. destruct a, b; simpl; split; intro H; try discriminate; auto. Qed.

(** Which codes belong to an account depends on its key alone. *)
Lemma code_matches_pk (u u' : User) (t : CodeType) (c : VerificationCode) :
  pk u' = pk u -> code_matches u' t c = code_matches u t c.
Proof. intro H. unfold code_matches, refers_to. now rewrite H. Qed.


(** Deleting the codes of a purpose leaves none of that purpose... *)
Lemma filter_delete_none (u : User) (t : CodeType) (l : list VerificationCode) :
  filter (code_matches u t) (filter (fun c => negb (code_matches u t c)) l)
  = [].
Proof.
  induction l as [|c l IH]; simpl; auto.
  destruct (code_matches u t c) eqn:E; simpl; auto.
  now rewrite E.
Qed.

(** ... and every code of another purpose in place. *)
Lemma filter_delete_other (u : User) (t t' : CodeType)
    (l : list VerificationCode) :
  t' <> t ->
  filter (code_matches u t') (filter (fun c => negb (code_matches u t c)) l)
  = filter (code_matches u t') l.
Proof.
  intro Hne. induction l as [|c l IH]; simpl; auto.
  destruct (code_matches u t c) eqn:E; simpl.
  - destruct (code_matches u t' c) eqn:E'; auto.
    exfalso. apply Hne. unfold code_matches in E, E'.
    apply andb_true_iff in E as [_ E], E' as [_ E'].
    apply CodeType_eqb_eq in E, E'. congruence.
  - destruct (code_matches u t' c); simpl; now rewrite IH.
Qed.

Lemma code_matches_new (u : User) (k : nat) (t : CodeType) (n : nat) :
  pk u = Some k -> code_matches u t (mkCode k t n) = true.
Proof.
  intro H. unfold code_matches, refers_to. simpl.
  rewrite H. simpl. now rewrite Nat.eqb_refl, CodeType_eqb_refl.
Qed.

Lemma code_matches_new_other (u : User) (k : nat) (t t' : CodeType) (n : nat) :
  t' <> t -> code_matches u t' (mkCode k t n) = false.
Proof.
  intro H. unfold code_matches. simpl.
  destruct (CodeType_eqb t t') eqn:E.
  - apply CodeType_eqb_eq in E. congruence.
  - apply andb_false_r.
Qed.

(** Replacing the codes of a purpose by a new one leaves exactly the new
    one. *)
Lemma filter_reissue (u : User) (k : nat) (t : CodeType) (n : nat)
    (l : list VerificationCode) :
  pk u = Some k ->
  filter (code_matches u t)
    (filter (fun c => negb (code_matches u t c)) l ++ [mkCode k t n])
  = [mkCode k t n].
Proof.
  intro H. rewrite filter_app, filter_delete_none. simpl.
  now rewrite (code_matches_new u k t n H).
Qed.

Lemma filter_reissue_other (u : User) (k : nat) (t t' : CodeType) (n : nat)
    (l : list VerificationCode) :
  t' <> t ->
  filter (code_matches u t')
    (filter (fun c => negb (code_matches u t c)) l ++ [mkCode k t n])
  = filter (code_matches u t') l.
Proof.
  intro H. rewrite filter_app, filter_delete_other by assumption. simpl.
  rewrite (code_matches_new_other u k t t' n H). apply app_nil_r.
Qed.

(** *** What a save does to the table *)

Lemma same_pk_to_row (k : nat) (u : User) :
  same_pk k (to_row u) = same_pk k u.
Proof. reflexivity. Qed.

Lemma email_taken_saved (self u : User) (k : nat) (rows : list User) :
  pk self = Some k -> pk u = Some k ->
  email_taken u (saved_rows self rows) = email_taken u rows.
Proof.
  intros Hs Hu. unfold email_taken, saved_rows. rewrite Hs.
  destruct (email u) as [e|]; auto. rewrite Hu.
  destruct (existsb (same_pk k) rows) eqn:Ex.
  - clear Ex. induction rows as [|r rows IH]; simpl; auto.
    rewrite IH. f_equal.
    unfold same_pk. destruct (option_nat_eqb (pk r) (Some k)) eqn:E.
    + simpl. rewrite Hs. simpl. now rewrite Nat.eqb_refl.
    + now rewrite E.
  - rewrite existsb_app. simpl. rewrite Hs. simpl.
    rewrite Nat.eqb_refl. simpl. apply orb_false_r.
Qed.

Lemma constraints_ok_saved (self u : User) (k : nat) (rows : list User) :
  pk self = Some k -> pk u = Some k ->
  constraints_ok u (saved_rows self rows) = constraints_ok u rows.
Proof.
  intros Hs Hu. unfold constraints_ok, integrity_ok.
  now rewrite (email_taken_saved self u k rows Hs Hu).
Qed.

(** The integrity constraints look at the key, the email and the display
    name. *)
Lemma integrity_ok_ext (u u' : User) (rows : list User) :
  pk u' = pk u -> email u' = email u -> display_name u' = display_name u ->
  integrity_ok u' rows = integrity_ok u rows.
Proof.
  intros Hp He Hd. unfold integrity_ok, email_taken.
  now rewrite Hp, He, Hd.
Qed.

Lemma constraints_ok_ext (u u' : User) (rows : list User) :
  pk u' = pk u -> email u' = email u -> display_name u' = display_name u ->
  values_ok u' = values_ok u ->
  constraints_ok u' rows = constraints_ok u rows.
Proof.
  intros Hp He Hd Hl. unfold constraints_ok.
  now rewrite Hl, (integrity_ok_ext u u' rows Hp He Hd).
Qed.

Lemma constraints_ok_parts (u : User) (rows : list User) :
  constraints_ok u rows = true ->
  values_ok u = true /\ integrity_ok u rows = true.
Proof. unfold constraints_ok. intro H. now apply andb_true_iff in H. Qed.

Lemma save_run (self : User) (w : World) (k : nat) :
  pk self = Some k ->
  constraints_ok self (users (db w)) = true ->
  save self w = (Ok self, put_users (saved_rows self (users (db w))) w).
Proof.
  intros Hk Hc. apply constraints_ok_parts in Hc as [Hl Hi].
  unfold values_ok in Hl. apply andb_true_iff in Hl as [Ht Hl].
  unfold save, put_users, saved_rows.
  rewrite Ht, Hl, Hi, Hk. simpl.
  destruct (existsb (same_pk k) (users (db w))); reflexivity.
Qed.

Lemma save_error_values_ok (self : User) :
  values_ok self = true -> save_error self = IntegrityError.
Proof.
  unfold values_ok, save_error. intro H.
  apply andb_true_iff in H as [Ht Hl]. now rewrite Ht, Hl.
Qed.

(** [save] in one piece: it writes if the row can be written and raises
    otherwise. *)
Lemma save_eq (self : User) (w : World) :
  save self w =
  if constraints_ok self (users (db w))
  then (Ok (keyed self (users (db w))),
        put_users (saved_rows self (users (db w))) w)
  else (Err (save_error self), w).
Proof.
  unfold save, constraints_ok, values_ok, save_error, keyed, put_users,
    saved_rows.
  destruct (text_ok self); simpl; [|reflexivity].
  destruct (lengths_ok self); simpl; [|reflexivity].
  destruct (integrity_ok self (users (db w))); [|reflexivity].
  destruct (pk self) as [k|]; [|reflexivity].
  destruct (existsb (same_pk k) (users (db w))); reflexivity.
Qed.

Lemma saved_rows_find (self : User) (k : nat) (rows : list User) :
  pk self = Some k ->
  find (same_pk k) (saved_rows self rows) = Some (to_row self).
Proof.
  intro Hk. unfold saved_rows. rewrite Hk.
  destruct (existsb (same_pk k) rows) eqn:Ex.
  - induction rows as [|r rows IH]; simpl in *; try discriminate.
    destruct (same_pk k r) eqn:E; simpl.
    + unfold same_pk at 1. simpl. rewrite Hk. simpl. now rewrite Nat.eqb_refl.
    + rewrite E. auto.
  - induction rows as [|r rows IH]; simpl in *.
    + unfold same_pk. simpl. rewrite Hk. simpl. now rewrite Nat.eqb_refl.
    + apply orb_false_iff in Ex as [E Ex]. rewrite E. auto.
Qed.

Lemma saved_rows_idem (self : User) (k : nat) (rows : list User) :
  pk self = Some k ->
  saved_rows self (saved_rows self rows) = saved_rows self rows.
Proof.
  intro Hk.
  assert (Hself : same_pk k (to_row self) = true).
  { unfold same_pk. simpl. rewrite Hk. simpl. apply Nat.eqb_refl. }
  unfold saved_rows. rewrite Hk.
  destruct (existsb (same_pk k) rows) eqn:Ex.
  - assert (Ex' : existsb (same_pk k)
              (map (fun r => if same_pk k r then to_row self else r) rows)
            = true).
    { clear -Ex Hself. induction rows as [|r rows IH]; simpl in *; auto.
      destruct (same_pk k r) eqn:E; simpl.
      - now rewrite Hself.
      - rewrite E. simpl. auto. }
    rewrite Ex'. rewrite map_map. apply map_ext. intro r.
    destruct (same_pk k r) eqn:E; [now rewrite Hself | now rewrite E].
  - rewrite existsb_app. simpl. rewrite Hself, orb_true_r.
    rewrite map_app. simpl. rewrite Hself. f_equal.
    clear -Ex. induction rows as [|r rows IH]; simpl in *; auto.
    apply orb_false_iff in Ex as [E Ex]. rewrite E. f_equal. auto.
Qed.


(** ** The methods, run *)

Lemma save_fail (self : User) (w : World) :
  constraints_ok self (users (db w)) = false ->
  save self w = (Err (save_error self), w).
Proof. intro H. rewrite save_eq. now rewrite H. Qed.

Lemma _unverify_mail_run (self : User) (w : World) (k : nat) :
  pk self = Some k ->
  constraints_ok self (users (db w)) = true ->
  _unverify_mail self w =
  (Ok (set_mail_verified false self),
   mkWorld (mkDb (saved_rows (set_mail_verified false self) (users (db w)))
                 (reissued self k EMAIL_VERIFICATION w)
                 (memberships (db w)))
           (storage w) (outbox w) (clock w) (S (tokens w))).
Proof.
  intros Hk Hc. unfold_methods. rewrite Hk. cbn.
  rewrite (save_run _ _ k) by (cbn; assumption).
  reflexivity.
Qed.

Lemma _unverify_mail_fail (self : User) (w : World) (k : nat) :
  pk self = Some k ->
  constraints_ok self (users (db w)) = false ->
  fst (_unverify_mail self w) = Err (save_error self).
Proof.
  intros Hk Hc. unfold_methods. rewrite Hk. cbn.
  rewrite save_fail by (cbn; assumption). reflexivity.
Qed.

Lemma verify_mail_run (self : User) (w : World) (k : nat) :
  pk self = Some k ->
  constraints_ok (set_email (unverified_email self) self) (users (db w))
  = true ->
  verify_mail self w =
  (Ok (set_mail_verified true (set_email (unverified_email self) self)),
   mkWorld (mkDb (saved_rows
                    (set_mail_verified true
                       (set_email (unverified_email self) self))
                    (users (db w)))
                 (filter (fun c => negb (code_matches self EMAIL_VERIFICATION c))
                         (codes (db w)))
                 (memberships (db w)))
           (storage w) (outbox w) (clock w) (tokens w)).
Proof.
  intros Hk Hc. unfold_methods. cbn.
  rewrite (save_run _ _ k) by (cbn; assumption).
  reflexivity.
Qed.

Lemma verify_mail_fail (self : User) (w : World) :
  constraints_ok (set_email (unverified_email self) self) (users (db w))
  = false ->
  fst (verify_mail self w)
  = Err (save_error (set_email (unverified_email self) self)).
Proof.
  intros Hc. unfold_methods. cbn.
  rewrite save_fail by (cbn; assumption). reflexivity.
Qed.

Lemma restore_email_run (self : User) (w : World) (k : nat) :
  pk self = Some k ->
  constraints_ok (set_unverified_email (email self) self) (users (db w))
  = true ->
  restore_email self w =
  (Ok (set_mail_verified true (set_unverified_email (email self) self)),
   mkWorld (mkDb (saved_rows
                    (set_mail_verified true
                       (set_unverified_email (email self) self))
                    (users (db w)))
                 (filter (fun c => negb (code_matches self EMAIL_VERIFICATION c))
                         (codes (db w)))
                 (memberships (db w)))
           (storage w) (outbox w) (clock w) (tokens w)).
Proof.
  intros Hk Hc. unfold_methods. cbn.
  rewrite (save_run _ _ k) by (cbn; assumption).
  reflexivity.
Qed.

Lemma restore_email_fail (self : User) (w : World) :
  constraints_ok (set_unverified_email (email self) self) (users (db w))
  = false ->
  fst (restore_email self w)
  = Err (save_error (set_unverified_email (email self) self)).
Proof.
  intros Hc. unfold_methods. cbn.
  rewrite save_fail by (cbn; assumption). reflexivity.
Qed.

Lemma send_mail_verification_code_run (self : User) (w : World) (k : nat) :
  pk self = Some k ->
  constraints_ok self (users (db w)) = true ->
  send_mail_verification_code self w =
  (Ok (set_mail_verified false self),
   mkWorld (mkDb (saved_rows (set_mail_verified false self) (users (db w)))
                 (reissued self k EMAIL_VERIFICATION w)
                 (memberships (db w)))
           (storage w)
           (outbox w ++ [mkMail "mailverification"
                           (set_mail_verified false self)
                           (CodeToken (tokens w))])
           (clock w) (S (tokens w))).
Proof.
  intros Hk Hc. unfold send_mail_verification_code, atomic, bind at 1.
  rewrite (_unverify_mail_run self w k Hk Hc).
  unfold bind, codes_get, pending_codes. cbn [db codes].
  unfold reissued.
  rewrite (filter_reissue (set_mail_verified false self) k) by exact Hk.
  reflexivity.
Qed.

Lemma send_mail_verification_code_fail (self : User) (w : World) (k : nat) :
  pk self = Some k ->
  constraints_ok self (users (db w)) = false ->
  fst (send_mail_verification_code self w) = Err (save_error self).
Proof.
  intros Hk Hc. unfold send_mail_verification_code, atomic, bind at 1.
  pose proof (_unverify_mail_fail self w k Hk Hc) as H.
  destruct (_unverify_mail self w) as [[u'|e] w']; simpl in *; congruence.
Qed.

Lemma update_email_run (new : option string) (self : User) (w : World)
    (k : nat) :
  pk self = Some k ->
  constraints_ok (set_unverified_email new self) (users (db w)) = true ->
  update_email new self w =
  let self1 := set_unverified_email new self in
  let self2 := set_mail_verified false self1 in
  (Ok self2,
   mkWorld (mkDb (saved_rows self2 (users (db w)))
                 (reissued self k EMAIL_VERIFICATION w)
                 (memberships (db w)))
           (storage w)
           (outbox w ++ [mkMail "changemail_notice" self1 NoArg]
                     ++ [mkMail "mailverification" self2
                           (CodeToken (tokens w))])
           (clock w) (S (tokens w))).
Proof.
  intros Hk Hc.
  unfold update_email, atomic, bind at 1, _send_mail_change_notification, send.
  rewrite (send_mail_verification_code_run _ _ k) by (cbn; assumption).
  cbn. rewrite <- app_assoc. reflexivity.
Qed.

Lemma update_email_fail (new : option string) (self : User) (w : World)
    (k : nat) :
  pk self = Some k ->
  constraints_ok (set_unverified_email new self) (users (db w)) = false ->
  fst (update_email new self w)
  = Err (save_error (set_unverified_email new self)).
Proof.
  intros Hk Hc.
  unfold update_email, atomic, bind at 1, _send_mail_change_notification, send.
  match goal with
  | |- context [send_mail_verification_code ?u ?w'] =>
      pose proof (send_mail_verification_code_fail u w' k Hk Hc) as H;
      destruct (send_mail_verification_code u w') as [[u'|e] w'']
  end; simpl in *; congruence.
Qed.

Lemma reset_password_run (self : User) (w : World) (k : nat) :
  pk self = Some k ->
  reset_password self w =
  (Ok self,
   mkWorld (mkDb (users (db w)) (reissued self k PASSWORD_RESET w)
                 (memberships (db w)))
           (storage w)
           (outbox w ++ [mkMail "passwordreset" self
                           (Url "/#/password/reset?code=" (tokens w))])
           (clock w) (S (tokens w))).
Proof.
  intros Hk. unfold_methods. rewrite Hk. cbn.
  fold (reissued self k PASSWORD_RESET w). unfold reissued.
  rewrite (filter_reissue self k) by exact Hk.
  reflexivity.
Qed.

Lemma send_account_deletion_verification_code_run (self : User) (w : World)
    (k : nat) :
  pk self = Some k ->
  send_account_deletion_verification_code self w =
  (Ok self,
   mkWorld (mkDb (users (db w)) (reissued self k ACCOUNT_DELETE w)
                 (memberships (db w)))
           (storage w)
           (outbox w ++ [mkMail "accountdelete_request" self
                           (Url "/#/user/delete?code=" (tokens w))])
           (clock w) (S (tokens w))).
Proof.
  intros Hk. unfold_methods. rewrite Hk. cbn. reflexivity.
Qed.

Lemma change_password_run (p : option string) (self : User) (w : World)
    (k : nat) :
  pk self = Some k ->
  constraints_ok self (users (db w)) = true ->
  change_password p self w =
  (Ok (set_password p self),
   mkWorld (mkDb (saved_rows (set_password p self) (users (db w)))
                 (filter (fun c => negb (code_matches self PASSWORD_RESET c))
                         (codes (db w)))
                 (memberships (db w)))
           (storage w)
           (outbox w ++ [mkMail "passwordchange" (set_password p self) NoArg])
           (clock w) (tokens w)).
Proof.
  intros Hk Hc. unfold_methods.
  rewrite (save_run _ _ k) by (cbn; assumption).
  cbn. reflexivity.
Qed.

Lemma change_password_fail (p : option string) (self : User) (w : World) :
  constraints_ok self (users (db w)) = false ->
  fst (change_password p self w) = Err (save_error self).
Proof.
  intros Hc. unfold_methods.
  rewrite save_fail by (cbn; assumption). reflexivity.
Qed.

(** *** The pending codes after a run *)

Lemma pending_reissued (u self : User) (k : nat) (t : CodeType) (w : World) :
  pk u = Some k -> pk self = Some k ->
  filter (code_matches u t) (reissued self k t w)
  = [mkCode k t (tokens w)].
Proof.
  intros Hu Hs. unfold reissued.
  rewrite (filter_ext (code_matches u t) (code_matches self t))
    by (intro c; apply code_matches_pk; congruence).
  now apply filter_reissue.
Qed.

Lemma pending_reissued_other (u self : User) (k : nat) (t t' : CodeType)
    (w : World) :
  pk u = pk self -> t' <> t ->
  filter (code_matches u t') (reissued self k t w)
  = filter (code_matches u t') (codes (db w)).
Proof.
  intros Hu Hne. unfold reissued.
  rewrite !(filter_ext (code_matches u t') (code_matches self t'))
    by (intro c; apply code_matches_pk; congruence).
  now apply filter_reissue_other.
Qed.

Lemma pending_deleted (u self : User) (t : CodeType)
    (l : list VerificationCode) :
  pk u = pk self ->
  filter (code_matches u t) (filter (fun c => negb (code_matches self t c)) l)
  = [].
Proof.
  intros Hu.
  rewrite (filter_ext (code_matches u t) (code_matches self t))
    by (intro c; apply code_matches_pk; congruence).
  apply filter_delete_none.
Qed.

Lemma pending_deleted_other (u self : User) (t t' : CodeType)
    (l : list VerificationCode) :
  pk u = pk self -> t' <> t ->
  filter (code_matches u t') (filter (fun c => negb (code_matches self t c)) l)
  = filter (code_matches u t') l.
Proof.
  intros Hu Hne.
  rewrite !(filter_ext (code_matches u t') (code_matches self t'))
    by (intro c; apply code_matches_pk; congruence).
  now apply filter_delete_other.
Qed.


(** *** delete_ *)

Lemma for_each_memberships (self : User) (groups : list nat) (w : World) :
  for_each groups (fun g => memberships_filter_delete g self) w =
  (Ok tt,
   with_db (mkDb (users (db w)) (codes (db w))
                 (without_memberships self groups (memberships (db w)))) w).
Proof.
  revert w. induction groups as [|g gs IH]; intro w.
  - simpl. unfold ret, without_memberships.
    assert (E : forall ms : list GroupMembership,
               filter (fun m => negb (existsb (Nat.eqb (gm_group m)) []
                                      && refers_to self (gm_user m))) ms
               = ms).
    { induction ms as [|m ms IHms]; simpl in *; [reflexivity|].
      now rewrite IHms. }
    rewrite E. destruct w as [[us cs ms] st ob cl tk]; reflexivity.
  - simpl. unfold bind at 1. unfold memberships_filter_delete at 1.
    rewrite IH. cbn. unfold with_db. cbn. do 3 f_equal.
    unfold without_memberships.
    generalize (memberships (db w)) as ms. clear.
    induction ms as [|m ms IHms]; simpl; auto.
    destruct (Nat.eqb (gm_group m) g) eqn:Eg; simpl.
    + destruct (refers_to self (gm_user m)) eqn:Er; simpl; auto.
      rewrite Er, andb_false_r. simpl. now rewrite IHms.
    + destruct (existsb (Nat.eqb (gm_group m)) gs
                && refers_to self (gm_user m)); simpl; now rewrite IHms.
Qed.

(** With the groups the query returned, every membership of the account
    goes and every other membership stays. *)
Lemma without_own_memberships (self : User) (ms : list GroupMembership) :
  without_memberships self
    (map gm_group (filter (fun m => refers_to self (gm_user m)) ms)) ms
  = filter (fun m => negb (refers_to self (gm_user m))) ms.
Proof.
  unfold without_memberships. apply filter_ext_in. intros m Hm.
  destruct (refers_to self (gm_user m)) eqn:Er; simpl.
  - rewrite andb_true_r.
    assert (E : existsb (Nat.eqb (gm_group m))
                  (map gm_group
                     (filter (fun m0 => refers_to self (gm_user m0)) ms))
                = true).
    { apply existsb_exists.
      exists (gm_group m). split; [|apply Nat.eqb_refl].
      apply in_map. apply filter_In. now split. }
    now rewrite E.
  - now rewrite andb_false_r.
Qed.

Lemma delete__run (self : User) (w : World) (k : nat) (name : string) :
  pk self = Some k ->
  photo self = Some name ->
  constraints_ok (scrubbed (clock w) self) (users (db w)) = true ->
  delete_ self w =
  (Ok (scrubbed (clock w) self),
   mkWorld (mkDb (saved_rows (scrubbed (clock w) self) (users (db w)))
                 (codes (db w))
                 (filter (fun m => negb (refers_to self (gm_user m)))
                         (memberships (db w))))
           (storage_without_photo self w)
           (outbox w ++ [mkMail "accountdelete_success"
                           (scrubbed (clock w) self) NoArg])
           (clock w) (tokens w)).
Proof.
  intros Hk Hp Hc.
  unfold delete_, atomic, bind at 1, groups_filter_members.
  unfold bind at 1. rewrite for_each_memberships.
  rewrite without_own_memberships.
  unfold bind at 1, timezone_now. cbn [clock with_db].
  unfold bind at 1, delete_photo, bind at 1,
    photo_delete_all_created_images, photo_delete, storage_without_photo.
  destruct self as [pk0 pw em ia ist isu dn de la mv ue mo dl da cg ph ml].
  cbn in Hk, Hp, Hc |- *. subst pk0 ph.
  destruct name as [|c name]; cbn.
  - unfold bind at 1.
    rewrite (save_run _ _ k) by (cbn; auto).
    cbn. reflexivity.
  - unfold bind at 1.
    rewrite (save_run _ _ k) by (cbn; auto).
    cbn. reflexivity.
Qed.

Lemma delete__fail (self : User) (w : World) (name : string) :
  photo self = Some name ->
  constraints_ok (scrubbed (clock w) self) (users (db w)) = false ->
  fst (delete_ self w) = Err (save_error (scrubbed (clock w) self)).
Proof.
  intros Hp Hc.
  unfold delete_, atomic, bind at 1, groups_filter_members.
  unfold bind at 1. rewrite for_each_memberships.
  unfold bind at 1, timezone_now. cbn [clock with_db].
  unfold bind at 1, delete_photo, bind at 1,
    photo_delete_all_created_images, photo_delete.
  destruct self as [pk0 pw em ia ist isu dn de la mv ue mo dl da cg ph ml].
  cbn in Hp, Hc |- *. subst ph.
  destruct name as [|c name]; cbn.
  - unfold bind at 1. rewrite save_fail by (cbn; auto). reflexivity.
  - unfold bind at 1. rewrite save_fail by (cbn; auto). reflexivity.
Qed.

(** On an instance whose photo field has no name, [delete_] raises
    TypeError when it comes to the photo, and the memberships deleted
    before are rolled back: the world is as it was. *)
Lemma delete__no_photo (self : User) (w : World) :
  photo self = None ->
  delete_ self w = (Err TypeError, w).
Proof.
  intros Hp.
  unfold delete_, atomic, bind at 1, groups_filter_members.
  unfold bind at 1. rewrite for_each_memberships.
  unfold bind at 1, timezone_now. cbn [clock with_db].
  unfold bind at 1, delete_photo, bind at 1,
    photo_delete_all_created_images.
  cbn [photo set_deleted set_deleted_at set_unverified_email
       set_mail_verified set_is_staff set_is_active set_mail
       set_unusable_password set_password_field set_description].
  rewrite Hp. destruct w as [[us cs ms] st ob cl tk]. reflexivity.
Qed.

(** What stands between a saved instance with a photo field read from
    its row, or holding a file, and a successful [delete_]. *)
Lemma delete__cases (self : User) (w : World) (u' : User) (w' : World)
    (k : nat) :
  pk self = Some k ->
  delete_ self w = (Ok u', w') ->
  exists name,
    photo self = Some name
    /\ constraints_ok (scrubbed (clock w) self) (users (db w)) = true.
Proof.
  intros Hk H. destruct (photo self) as [name|] eqn:Hp.
  - exists name. split; [reflexivity|].
    destruct (constraints_ok (scrubbed (clock w) self) (users (db w)))
      eqn:Hc; [reflexivity|].
    pose proof (delete__fail self w name Hp Hc) as Hf.
    rewrite H in Hf. discriminate.
  - rewrite (delete__no_photo self w Hp) in H. discriminate.
Qed.

Lemma files_of_storage_without_photo (self : User) (w : World) (name : string) :
  photo self = Some name -> name <> EmptyString ->
  filter (fun f => String.eqb (sf_name f) name) (storage_without_photo self w)
  = [].
Proof.
  intros Hp Hne. unfold storage_without_photo. rewrite Hp.
  destruct name as [|c0 name0]; [contradiction|].
  set (name := String c0 name0). clearbody name.
  induction (storage w) as [|f fs IH]; simpl; auto.
  destruct (String.eqb (sf_name f) name) eqn:En; simpl.
  - destruct (is_rendition (sf_kind f)) eqn:Er; simpl; auto.
    rewrite En, Er. simpl. auto.
  - rewrite En. simpl. rewrite En. auto.
Qed.


(** *** Case folding and normalization *)

Lemma upper_char_lower_char (c : ascii) :
  Text.upper_char (Text.lower_char c) = Text.upper_char c.
Proof.
  destruct c as [[] [] [] [] [] [] [] []]; reflexivity.
Qed.

Lemma upper_char_idem (c : ascii) :
  Text.upper_char (Text.upper_char c) = Text.upper_char c.
Proof.
  destruct c as [[] [] [] [] [] [] [] []]; reflexivity.
Qed.

Lemma upper_idem (s : string) : Text.upper (Text.upper s) = Text.upper s.
Proof.
  induction s as [|c s IH]; simpl; auto.
  now rewrite upper_char_idem, IH.
Qed.

Lemma upper_lower (s : string) : Text.upper (Text.lower s) = Text.upper s.
Proof.
  induction s as [|c s IH]; simpl; auto.
  now rewrite upper_char_lower_char, IH.
Qed.

Lemma upper_app (a b : string) :
  Text.upper (a ++ b)%string = (Text.upper a ++ Text.upper b)%string.
Proof.
  induction a as [|c a IH]; simpl; auto. now rewrite IH.
Qed.

Lemma rsplit_at_parts (s a b : string) :
  Text.rsplit_at s = Some (a, b) -> s = (a ++ "@" ++ b)%string.
Proof.
  revert a b. induction s as [|c s IH]; simpl; intros a b H.
  - discriminate.
  - destruct (Text.rsplit_at s) as [[a' b']|].
    + injection H as <- <-. simpl. f_equal. now apply IH.
    + destruct (Ascii.eqb c "@") eqn:E; try discriminate.
      injection H as <- <-. apply Ascii.eqb_eq in E. now subst.
Qed.

(** Normalization changes nothing but surrounding whitespace and case. *)
Lemma upper_normalize_email (e : string) :
  Text.strip e = e ->
  Text.upper (normalize_email e) = Text.upper e.
Proof.
  intro Hs. unfold normalize_email. rewrite Hs.
  destruct (Text.rsplit_at e) as [[a b]|] eqn:E; auto.
  apply rsplit_at_parts in E. clear Hs. subst e.
  rewrite !upper_app. simpl. now rewrite upper_lower.
Qed.

Lemma iexact_upper (e key : string) :
  Text.iexact e (Text.upper key) = Text.iexact e key.
Proof. unfold Text.iexact. now rewrite upper_idem. Qed.

Lemma iexact_normalize_email (e : string) :
  Text.strip e = e ->
  Text.iexact (normalize_email e) (Text.upper e) = true.
Proof.
  intro Hs. unfold Text.iexact.
  rewrite upper_idem, (upper_normalize_email e Hs). apply String.eqb_refl.
Qed.

(** *** Keys *)

Lemma fresh_pk_above (rows : list User) (r : User) (j : nat) :
  In r rows -> pk r = Some j -> j < fresh_pk rows.
Proof.
  intros Hin Hj. unfold fresh_pk.
  assert (H : Forall (fun n => n <= list_max (map pk_or_zero rows))
                (map pk_or_zero rows)).
  { apply list_max_le. apply Nat.le_refl. }
  rewrite Forall_forall in H.
  specialize (H (pk_or_zero r) (in_map _ _ _ Hin)).
  unfold pk_or_zero in H at 1. rewrite Hj in H. lia.
Qed.

Lemma fresh_pk_unused (rows : list User) :
  existsb (same_pk (fresh_pk rows)) rows = false.
Proof.
  destruct (existsb (same_pk (fresh_pk rows)) rows) eqn:E; auto.
  apply existsb_exists in E as [r [Hin Hr]].
  unfold same_pk in Hr. apply option_nat_eqb_eq in Hr.
  pose proof (fresh_pk_above rows r _ Hin Hr). lia.
Qed.

Lemma map_unused (k : nat) (u : User) (rows : list User) :
  existsb (same_pk k) rows = false ->
  map (fun r => if same_pk k r then u else r) rows = rows.
Proof.
  induction rows as [|r rows IH]; simpl; auto.
  intro H. apply orb_false_iff in H as [E H]. rewrite E. f_equal. auto.
Qed.

(** Saving again a row that was just inserted under a key no other row
    carries rewrites that row alone. *)
Lemma saved_rows_last (u u' : User) (k : nat) (rows : list User) :
  pk u = Some k -> pk u' = Some k ->
  existsb (same_pk k) rows = false ->
  saved_rows u' (rows ++ [to_row u]) = rows ++ [to_row u'].
Proof.
  intros Hu Hu' Hex. unfold saved_rows. rewrite Hu'.
  assert (Hself : same_pk k (to_row u) = true).
  { unfold same_pk. simpl. rewrite Hu. simpl. apply Nat.eqb_refl. }
  rewrite existsb_app. simpl. rewrite Hself, orb_true_r.
  rewrite map_app. simpl. rewrite Hself.
  now rewrite (map_unused k _ rows Hex).
Qed.

(** *** _create_user *)

Lemma saved_rows_twice (u u' : User) (k : nat) (rows : list User) :
  pk u = Some k -> pk u' = Some k ->
  saved_rows u' (saved_rows u rows) = saved_rows u' rows.
Proof.
  intros Hk Hk'.
  assert (Hu : same_pk k (to_row u) = true).
  { unfold same_pk. simpl. rewrite Hk. simpl. apply Nat.eqb_refl. }
  unfold saved_rows. rewrite Hk, Hk'.
  destruct (existsb (same_pk k) rows) eqn:Ex.
  - assert (Ex' : existsb (same_pk k)
              (map (fun r => if same_pk k r then to_row u else r) rows)
            = true).
    { clear -Ex Hu. induction rows as [|r rows IH]; simpl in *; auto.
      destruct (same_pk k r) eqn:E; simpl.
      - now rewrite Hu.
      - rewrite E. simpl. auto. }
    rewrite Ex'. rewrite map_map. apply map_ext. intro r.
    destruct (same_pk k r) eqn:E; [now rewrite Hu | now rewrite E].
  - rewrite existsb_app. simpl. rewrite Hu, orb_true_r.
    rewrite map_app. simpl. rewrite Hu. f_equal.
    now apply map_unused.
Qed.

Lemma email_unused_not_taken (e : string) (u : User) (rows : list User) :
  Text.strip e = e ->
  (forall r, In r rows -> email_iexact e r = false) ->
  email u = Some (normalize_email e) ->
  email_taken u rows = false.
Proof.
  intros Hs Hun He. unfold email_taken. rewrite He.
  destruct (existsb _ rows) eqn:E; auto.
  apply existsb_exists in E as [r [Hin Hr]].
  apply andb_true_iff in Hr as [_ Hr].
  specialize (Hun r Hin). unfold email_iexact in Hun.
  destruct (email r) as [e'|]; simpl in Hr; try discriminate.
  apply String.eqb_eq in Hr. subst e'.
  unfold Text.iexact in Hun.
  rewrite (upper_normalize_email e Hs), String.eqb_refl in Hun.
  discriminate.
Qed.

Lemma integrity_ok_appended (e : string) (u r : User) (k : nat)
    (rows : list User) :
  Text.strip e = e ->
  (forall r0, In r0 rows -> email_iexact e r0 = false) ->
  email u = Some (normalize_email e) ->
  pk u = Some k -> pk r = Some k ->
  is_some (display_name u) = true ->
  integrity_ok u (rows ++ [r]) = true.
Proof.
  intros Hs Hun He Hk Hr Hd. unfold integrity_ok. rewrite Hd.
  pose proof (email_unused_not_taken e u rows Hs Hun He) as Hnt.
  unfold email_taken in *. rewrite He in *.
  rewrite existsb_app, Hnt. simpl. rewrite Hr, Hk. simpl.
  now rewrite Nat.eqb_refl.
Qed.

Lemma new_user_keyed_pk (e : string) (password0 display_name0 : option string)
    (is_active0 : bool) (extra : ExtraFields) (rows : list User) :
  pk (keyed (new_user e password0 display_name0 is_active0 extra) rows)
  = Some (new_key extra rows).
Proof.
  unfold keyed, new_user, new_key, model. cbn.
  destruct (xf_pk extra) as [[k0|]|]; reflexivity.
Qed.

Lemma created_keyed (e : string) (password0 display_name0 : option string)
    (is_active0 : bool) (extra : ExtraFields) (rows : list User) :
  set_mail_verified false
    (keyed (new_user e password0 display_name0 is_active0 extra) rows)
  = created e password0 display_name0 is_active0 extra (new_key extra rows).
Proof.
  unfold keyed, new_user, new_key, created, model. cbn.
  destruct (xf_pk extra) as [[k0|]|]; reflexivity.
Qed.

Lemma saved_rows_keyed (u0 u : User) (k : nat) (rows : list User) :
  pk (keyed u0 rows) = Some k -> pk u = Some k ->
  find (same_pk k) (saved_rows u (saved_rows u0 rows)) = Some (to_row u).
Proof. intros _ Hu. now apply saved_rows_find. Qed.

(** Whenever _create_user succeeds, the account it returns is the closed
    form [created] under the key [new_key]; the instance built first could
    be written, the user table holds the account written over that first
    save, and one new EMAIL_VERIFICATION code and one mail were added. *)
Lemma _create_user_inv (email0 password0 display_name0 : option string)
    (is_active0 : bool) (extra : ExtraFields) (w : World) (u : User)
    (w' : World) :
  _create_user email0 password0 display_name0 is_active0 extra w = (Ok u, w') ->
  exists e,
    email0 = Some e
    /\ u = created e password0 display_name0 is_active0 extra
             (new_key extra (users (db w)))
    /\ constraints_ok (new_user e password0 display_name0 is_active0 extra)
         (users (db w)) = true
    /\ users (db w')
       = saved_rows u
           (saved_rows (new_user e password0 display_name0 is_active0 extra)
              (users (db w)))
    /\ codes (db w')
       = reissued u (new_key extra (users (db w))) EMAIL_VERIFICATION w
    /\ outbox w'
       = outbox w
         ++ [mkMail "mailverification" u
               (CodeRow (mkCode (new_key extra (users (db w)))
                           EMAIL_VERIFICATION (tokens w)))].
Proof.
  unfold _create_user, atomic, bind at 1, _validate_email.
  destruct email0 as [e|]; [|discriminate].
  unfold ret at 1, bind at 1.
  fold (new_user e password0 display_name0 is_active0 extra).
  set (u0 := new_user e password0 display_name0 is_active0 extra).
  rewrite save_eq.
  destruct (constraints_ok u0 (users (db w))) eqn:Hc0; [|discriminate].
  set (k := new_key extra (users (db w))).
  set (u1 := keyed u0 (users (db w))).
  set (w1 := put_users (saved_rows u0 (users (db w))) w).
  assert (Hk : pk u1 = Some k) by apply new_user_keyed_pk.
  unfold _send_welcome_mail, bind at 1.
  destruct (constraints_ok u1 (users (db w1))) eqn:Hc1.
  - rewrite (_unverify_mail_run u1 w1 k Hk Hc1).
    unfold bind at 1, codes_get. cbn [db codes].
    rewrite (pending_reissued _ u1 k) by exact Hk.
    unfold bind, send, ret. intro H. injection H as <- <-.
    exists e. split; [reflexivity|].
    split; [apply created_keyed|].
    split; [exact Hc0|].
    cbn [db users codes outbox w1 put_users with_db].
    repeat split.
  - pose proof (_unverify_mail_fail u1 w1 k Hk Hc1) as Hf.
    destruct (_unverify_mail u1 w1) as [[u2|err] w2]; simpl in Hf;
      [discriminate|].
    intro H. discriminate.
Qed.

Lemma _create_user_run (e : string) (password : option string) (d : string)
    (is_active : bool) (extra : ExtraFields) (w : World) :
  Text.strip e = e ->
  xf_pk extra = None ->
  values_ok (new_user e password (Some d) is_active extra) = true ->
  email_unused e w ->
  let k := fresh_pk (users (db w)) in
  let u := created e password (Some d) is_active extra k in
  _create_user (Some e) password (Some d) is_active extra w =
  (Ok u,
   mkWorld (mkDb (users (db w) ++ [to_row u])
                 (reissued u k EMAIL_VERIFICATION w)
                 (memberships (db w)))
           (storage w)
           (outbox w ++ [mkMail "mailverification" u
                           (CodeRow (mkCode k EMAIL_VERIFICATION (tokens w)))])
           (clock w) (S (tokens w))).
Proof.
  intros Hs Hxf Hl Hun k u.
  set (u0 := new_user e password (Some d) is_active extra) in *.
  set (u1 := set_pk (Some k) u0).
  assert (Hpk0 : pk u0 = None).
  { unfold u0, new_user, model. cbn. now rewrite Hxf. }
  assert (Hc0 : constraints_ok u0 (users (db w)) = true).
  { unfold constraints_ok, integrity_ok. rewrite Hl.
    rewrite (email_unused_not_taken e u0 _ Hs Hun) by reflexivity.
    reflexivity. }
  assert (Hsave : save u0 w = (Ok u1, put_users (users (db w) ++ [to_row u1]) w)).
  { rewrite save_eq, Hc0. unfold keyed, saved_rows. rewrite Hpk0.
    reflexivity. }
  assert (Hc1 : constraints_ok u1 (users (db w) ++ [to_row u1]) = true).
  { unfold constraints_ok. change (values_ok u1) with (values_ok u0).
    rewrite Hl. cbn [andb].
    apply (integrity_ok_appended e u1 (to_row u1) k); auto; reflexivity. }
  unfold _create_user, atomic, bind at 1, _validate_email, ret.
  unfold bind at 1.
  fold (new_user e password (Some d) is_active extra). fold u0.
  rewrite Hsave.
  unfold _send_welcome_mail, bind at 1.
  rewrite (_unverify_mail_run u1 _ k) by (try reflexivity; exact Hc1).
  cbn [db users put_users with_db].
  rewrite (saved_rows_last u1 (set_mail_verified false u1) k)
    by (try reflexivity; apply fresh_pk_unused).
  unfold bind at 1, codes_get. cbn [db codes].
  unfold reissued.
  rewrite (filter_reissue (set_mail_verified false u1) k) by reflexivity.
  cbn. reflexivity.
Qed.


(** ** Account creation *)

(** C4: creating a user without an email raises the validation error of
    [_validate_email] (the one the specification calls ValidationError),
    whatever the other arguments, and leaves the world as it was. *)
Theorem create_user_without_email_raises
    (password display_name : option string) (is_active : bool)
    (extra_fields : ExtraFields) (w : World) :
  create_user None password display_name is_active extra_fields w
  = (Err ValueError, w)
  /\ _create_user None password display_name is_active extra_fields w
     = (Err ValueError, w).
Proof.
  unfold create_user, _create_user, atomic, bind, _validate_email, raise.
  rewrite with_db_same. split; reflexivity.
Qed.

(** C7, as amended: update_language sets the language of the account
    object and nothing else: every other field keeps its value, and the
    world (the stored row of the account, every verification code, the
    mails) is the one before the call. *)
Theorem update_language_sets_only_the_attribute
    (language0 : string) (self : User) (w : World) :
  exists u',
    update_language language0 self w = (Ok u', w)
    /\ language u' = language0
    /\ pk u' = pk self /\ password u' = password self
    /\ email u' = email self /\ is_active u' = is_active self
    /\ is_staff u' = is_staff self /\ is_superuser u' = is_superuser self
    /\ display_name u' = display_name self
    /\ description u' = description self
    /\ mail_verified u' = mail_verified self
    /\ unverified_email u' = unverified_email self
    /\ mobile_number u' = mobile_number self
    /\ deleted u' = deleted self /\ deleted_at u' = deleted_at self
    /\ current_group u' = current_group self /\ photo u' = photo self
    /\ mail u' = mail self.
Proof.
  exists (set_language language0 self). repeat split.
Qed.

(** C7, the claim as stated fails: after update_language the row stored
    for the account still carries the old language; nothing was written. *)
Lemma update_language_writes_no_row :
  exists u',
    update_language "de" ann ann_world = (Ok u', ann_world)
    /\ language u' = "de"
    /\ option_map language (stored_row u' ann_world) = Some "en".
Proof.
  eexists. repeat split.
Qed.

(** ** Email *)

Lemma restore_writable (u : User) (rows : list User) :
  constraints_ok u rows = true ->
  constraints_ok (set_unverified_email (email u) u) rows = true.
Proof.
  intro H. apply constraints_ok_parts in H as [Hl Hi].
  unfold constraints_ok.
  rewrite (integrity_ok_ext u) by reflexivity.
  rewrite Hi, andb_true_r.
  unfold set_unverified_email. by_columns.
Qed.

(** C10, as amended: for a saved account and a new address with which
    the row can be written (an address of at most 254 characters),
    update_email leaves the account unverified, in the object and in the
    stored row, with the new address pending and exactly one pending
    EMAIL_VERIFICATION code: the one issued during the call (it carries the
    next token of the supply) and sent in the verification mail. *)
Theorem update_email_unverifies
    (new : option string) (self : User) (w : World) (k : nat) :
  pk self = Some k ->
  constraints_ok (set_unverified_email new self) (users (db w)) = true ->
  exists u' w',
    update_email new self w = (Ok u', w')
    /\ mail_verified u' = false
    /\ unverified_email u' = new
    /\ email u' = email self
    /\ stored_row u' w' = Some (to_row u')
    /\ option_map mail_verified (stored_row u' w') = Some false
    /\ option_map unverified_email (stored_row u' w') = Some new
    /\ pending_codes u' EMAIL_VERIFICATION w'
       = [mkCode k EMAIL_VERIFICATION (tokens w)]
    /\ count_codes u' EMAIL_VERIFICATION w' = 1
    /\ last (outbox w') (mkMail "" self NoArg)
       = mkMail "mailverification" u' (CodeToken (tokens w)).
Proof.
  intros Hk Hc. do 2 eexists. split.
  - apply (update_email_run new self w k Hk Hc).
  - cbn zeta. unfold count_codes, pending_codes, stored_row.
    cbn [db codes users outbox pk set_mail_verified set_unverified_email].
    rewrite Hk, (saved_rows_find _ k) by exact Hk.
    rewrite (pending_reissued _ self k) by exact Hk.
    rewrite app_assoc, last_last. repeat split.
Qed.

Lemma update_email_unverifies_witness :
  pk ann = Some 1
  /\ constraints_ok (set_unverified_email (Some "ann@y.org") ann)
       (users (db ann_world)) = true
  /\ exists u' w',
       update_email (Some "ann@y.org") ann ann_world = (Ok u', w')
       /\ mail_verified u' = false
       /\ unverified_email u' = Some "ann@y.org"
       /\ email u' = email ann
       /\ stored_row u' w' = Some (to_row u')
       /\ option_map mail_verified (stored_row u' w') = Some false
       /\ option_map unverified_email (stored_row u' w')
          = Some (Some "ann@y.org")
       /\ pending_codes u' EMAIL_VERIFICATION w'
          = [mkCode 1 EMAIL_VERIFICATION (tokens ann_world)]
       /\ count_codes u' EMAIL_VERIFICATION w' = 1
       /\ last (outbox w') (mkMail "" ann NoArg)
          = mkMail "mailverification" u' (CodeToken (tokens ann_world)).
Proof.
  split; [reflexivity|]. split; [reflexivity|].
  apply (update_email_unverifies (Some "ann@y.org") ann ann_world 1);
    reflexivity.
Defined.

(** C10, the claim as stated fails: with an address of 255 characters
    update_email raises DataError; the database is rolled back, so the
    stored account is still verified and no EMAIL_VERIFICATION code is
    pending. *)
Lemma update_email_long_address_raises :
  String.length long_address = 255
  /\ exists w',
       update_email (Some long_address) ann two_world = (Err DataError, w')
       /\ db w' = db two_world
       /\ option_map mail_verified (stored_row ann w') = Some true
       /\ count_codes ann EMAIL_VERIFICATION w' = 0.
Proof.
  split; [vm_compute; reflexivity|].
  eexists. split; [vm_compute; reflexivity|].
  repeat split.
Qed.





(** ** Password reset *)

Lemma reset_password_times_run (n : nat) (self : User) (w : World) (k : nat) :
  pk self = Some k ->
  exists w',
    reset_password_times (S n) self w = (Ok self, w')
    /\ pending_codes self PASSWORD_RESET w'
       = [mkCode k PASSWORD_RESET (tokens w + n)]
    /\ tokens w' = S (tokens w + n).
Proof.
  intro Hk. revert w. induction n as [|n IH]; intro w.
  - eexists. split.
    + simpl. unfold bind. rewrite (reset_password_run self w k Hk).
      reflexivity.
    + unfold pending_codes. cbn [db codes tokens].
      rewrite (pending_reissued self self k) by exact Hk.
      rewrite Nat.add_0_r. split; reflexivity.
  - destruct (IH (snd (reset_password self w))) as [w' [Hrun [Hp Ht]]].
    exists w'. split.
    + change (reset_password_times (S (S n)) self w)
        with (bind (reset_password self)
                (fun self0 => reset_password_times (S n) self0) w).
      unfold bind at 1.
      rewrite (reset_password_run self w k Hk) in Hrun |- *.
      exact Hrun.
    + rewrite (reset_password_run self w k Hk) in Hp, Ht.
      cbn [snd tokens] in Hp, Ht.
      rewrite Hp, Ht. split; f_equal; [f_equal|]; lia.
Qed.

(** C9: after any number of reset_password calls, at least one, the
    account has exactly one pending PASSWORD_RESET code, and it is the one
    issued by the last call: each call deletes the code of the call before
    and issues a new one. *)
Theorem reset_password_keeps_one_code
    (n : nat) (self : User) (w : World) (k : nat) :
  pk self = Some k ->
  0 < n ->
  exists u' w',
    reset_password_times n self w = (Ok u', w')
    /\ count_codes u' PASSWORD_RESET w' = 1
    /\ pending_codes u' PASSWORD_RESET w'
       = [mkCode k PASSWORD_RESET (tokens w + n - 1)].
Proof.
  intros Hk Hn. destruct n as [|n]; [lia|].
  destruct (reset_password_times_run n self w k Hk) as [w' [Hrun [Hp _]]].
  exists self, w'. split; [exact Hrun|].
  unfold count_codes. rewrite Hp. split; [reflexivity|].
  do 2 f_equal. lia.
Qed.

Lemma reset_password_keeps_one_code_witness :
  pk ann = Some 1
  /\ 0 < 3
  /\ exists u' w',
       reset_password_times 3 ann ann_world = (Ok u', w')
       /\ count_codes u' PASSWORD_RESET w' = 1
       /\ pending_codes u' PASSWORD_RESET w'
          = [mkCode 1 PASSWORD_RESET (tokens ann_world + 3 - 1)].
Proof.
  split; [reflexivity|]. split; [lia|].
  apply (reset_password_keeps_one_code 3 ann ann_world 1); [reflexivity|lia].
Defined.

(** ** Email verification *)

(** C2, as amended: verify_mail asks for no pending code.  On a saved
    account whose pending address breaks no constraint of the user table
    it succeeds, deletes every EMAIL_VERIFICATION code of the account,
    promotes unverified_email to the canonical email, in the object and in
    the stored row, and sets mail_verified; a second call right after it
    succeeds as well and changes neither the account nor the world. *)
Theorem verify_mail_promotes_and_repeats
    (self : User) (w : World) (k : nat) :
  pk self = Some k ->
  constraints_ok (set_email (unverified_email self) self) (users (db w))
  = true ->
  exists u' w',
    verify_mail self w = (Ok u', w')
    /\ email u' = unverified_email self
    /\ mail_verified u' = true
    /\ count_codes u' EMAIL_VERIFICATION w' = 0
    /\ stored_row u' w' = Some (to_row u')
    /\ verify_mail u' w' = (Ok u', w').
Proof.
  intros Hk Hc.
  pose proof (verify_mail_run self w k Hk Hc) as H1.
  do 2 eexists. split; [exact H1|].
  unfold count_codes, pending_codes, stored_row.
  cbn [db codes users pk set_mail_verified set_email email mail_verified].
  rewrite Hk, (saved_rows_find _ k) by exact Hk.
  rewrite pending_deleted by reflexivity.
  repeat split.
  rewrite (verify_mail_run _ _ k).
  - cbn [db codes users storage outbox clock tokens memberships
         unverified_email set_mail_verified set_email].
    rewrite (saved_rows_idem _ k) by exact Hk.
    f_equal. f_equal. f_equal.
    rewrite <- (filter_ext (fun c => negb (code_matches self EMAIL_VERIFICATION c)))
      by reflexivity.
    generalize (codes (db w)) as l.
    induction l as [|c l IH]; simpl; auto.
    destruct (code_matches self EMAIL_VERIFICATION c) eqn:E; simpl; auto.
    rewrite E. simpl. now rewrite IH.
  - exact Hk.
  - cbn [db users]. rewrite (constraints_ok_saved _ _ k) by exact Hk.
    exact Hc.
Qed.

Lemma verify_mail_promotes_and_repeats_witness :
  pk ann = Some 1
  /\ constraints_ok (set_email (unverified_email ann) ann)
       (users (db ann_world)) = true
  /\ exists u' w',
       verify_mail ann ann_world = (Ok u', w')
       /\ email u' = unverified_email ann
       /\ mail_verified u' = true
       /\ count_codes u' EMAIL_VERIFICATION w' = 0
       /\ stored_row u' w' = Some (to_row u')
       /\ verify_mail u' w' = (Ok u', w').
Proof.
  split; [reflexivity|]. split; [reflexivity|].
  apply (verify_mail_promotes_and_repeats ann ann_world 1); reflexivity.
Defined.

(** C2, the claim as stated fails: an account without any pending
    EMAIL_VERIFICATION code is verified all the same, and verifying it once
    more succeeds again instead of raising DoesNotExist. *)
Lemma verify_mail_without_pending_code :
  count_codes ann EMAIL_VERIFICATION ann_world = 0
  /\ exists u' w',
       verify_mail ann ann_world = (Ok u', w')
       /\ count_codes u' EMAIL_VERIFICATION w' = 0
       /\ fst (verify_mail u' w') = Ok u'
       /\ fst (verify_mail u' w') <> Err DoesNotExist.
Proof.
  split; [reflexivity|]. do 2 eexists.
  split; [reflexivity|]. split; [reflexivity|]. split; [reflexivity|].
  discriminate.
Qed.


(** ** Deletion *)

Lemma scrubbed_lengths_ext (t t' : Z) (u u' : User) :
  email u' = email u -> display_name u' = display_name u ->
  language u' = language u -> mobile_number u' = mobile_number u ->
  values_ok (scrubbed t' u') = values_ok (scrubbed t u).
Proof.
  intros He Hd Hl Hm. unfold values_ok, text_ok, lengths_ok, scrubbed.
  cbn [email unverified_email display_name description language
       mobile_number photo].
  rewrite He, Hd, Hl, Hm.
  destruct (photo u) as [[|c n]|], (photo u') as [[|c' n']|]; reflexivity.
Qed.

Lemma scrubbed_writable (t : Z) (u : User) (rows : list User) :
  constraints_ok u rows = true ->
  constraints_ok (scrubbed t u) rows = true.
Proof.
  intro H. apply constraints_ok_parts in H as [Hl Hi].
  unfold constraints_ok.
  rewrite (integrity_ok_ext u) by reflexivity.
  rewrite Hi, andb_true_r.
  unfold scrubbed. by_columns;
    destruct (photo u) as [[|c n]|]; reflexivity.
Qed.

(** X7: what delete_ does to a saved account whose photo field has a
    name (a file name, or the empty name of a row read back without photo)
    and whose row can be written: it succeeds, the memberships of the
    account are gone, the personal fields are scrubbed, a photo file and
    its renditions are removed from the storage and the field is left
    without name, the row is written and every verification code stays.
    The canonical email is the one field it leaves alone. *)
Lemma delete__effects (self : User) (w : World) (k : nat) (name : string) :
  pk self = Some k ->
  photo self = Some name ->
  constraints_ok self (users (db w)) = true ->
  exists u' w',
    delete_ self w = (Ok u', w')
    /\ memberships_of u' w' = []
    /\ description u' = "" /\ password u' = Unusable
    /\ unverified_email u' = None
    /\ is_active u' = false /\ is_staff u' = false
    /\ mail_verified u' = false
    /\ (name <> EmptyString -> photo u' = None /\ files_of name w' = [])
    /\ (name = EmptyString -> photo u' = Some EmptyString
                              /\ storage w' = storage w)
    /\ deleted u' = true /\ deleted_at u' = Some (clock w)
    /\ stored_row u' w' = Some (to_row u')
    /\ email u' = email self
    /\ codes (db w') = codes (db w).
Proof.
  intros Hk Hp Hc. do 2 eexists.
  split; [apply (delete__run self w k name Hk Hp);
          now apply scrubbed_writable|].
  unfold memberships_of, stored_row, files_of.
  cbn [db users codes memberships storage scrubbed pk description password
       unverified_email is_active is_staff mail_verified photo deleted
       deleted_at email].
  rewrite Hk, (saved_rows_find _ k) by exact Hk.
  repeat split.
  - unfold refers_to. cbn [pk scrubbed].
    induction (memberships (db w)) as [|m ms IH]; simpl; auto.
    destruct (option_nat_eqb (pk self) (Some (gm_user m))) eqn:E; simpl; auto.
    now rewrite E.
  - rewrite Hp. destruct name; [contradiction | reflexivity].
  - now apply files_of_storage_without_photo.
  - subst name. now rewrite Hp.
  - subst name. unfold storage_without_photo. now rewrite Hp.
Qed.

(** C1, the code at the failing input: delete_ on a verified account with
    a photo and two memberships does everything the claim lists except for
    the canonical email, which the account object and the stored row both
    keep; the assignment meant for it lands in the attribute [mail]. *)
Theorem delete__keeps_the_canonical_email :
  exists u' w',
    delete_ ann ann_world = (Ok u', w')
    /\ email u' = Some "ann@x.com"
    /\ option_map email (stored_row u' w') = Some (Some "ann@x.com")
    /\ mail u' = Some None
    /\ unverified_email u' = None
    /\ description u' = "" /\ password u' = Unusable
    /\ is_active u' = false /\ is_staff u' = false
    /\ mail_verified u' = false
    /\ memberships_of u' w' = []
    /\ photo u' = None /\ files_of "ann.jpg" w' = []
    /\ deleted u' = true /\ deleted_at u' = Some 500%Z.
Proof.
  do 2 eexists. split; [vm_compute; reflexivity|]. repeat split.
Qed.

(** C5, as amended: on an account that delete_ has already deleted, a
    second delete_ on the instance read again from its row succeeds,
    leaves deleted set and writes the time of the second call into
    deleted_at, in the object and in the row; deleted_at is never cleared,
    and it keeps its value exactly when the clock reads the same at both
    calls.  (The very object the first call returned is another matter:
    where its photo field was left without name, [delete__no_photo]
    applies.) *)
Theorem delete__again_overwrites_deleted_at
    (self : User) (w : World) (k : nat) (u1 : User) (w1 : World) (t : Z) :
  pk self = Some k ->
  delete_ self w = (Ok u1, w1) ->
  exists r1 u2 w2,
    stored_row u1 w1 = Some r1
    /\ delete_ r1 (with_clock t w1) = (Ok u2, w2)
    /\ deleted u1 = true /\ deleted_at u1 = Some (clock w)
    /\ deleted u2 = true /\ deleted_at u2 = Some t
    /\ option_map deleted_at (stored_row u2 w2) = Some (Some t)
    /\ (deleted_at u2 = deleted_at u1 <-> t = clock w).
Proof.
  intros Hk H1.
  destruct (delete__cases self w u1 w1 k Hk H1) as [name [Hp Hc]].
  rewrite (delete__run self w k name Hk Hp Hc) in H1.
  injection H1 as <- <-.
  set (u1 := scrubbed (clock w) self).
  exists (to_row u1).
  assert (Hrow : photo (to_row u1) = Some EmptyString).
  { unfold u1. cbn [to_row set_mail set_photo photo scrubbed]. rewrite Hp.
    destruct name; reflexivity. }
  do 2 eexists. split.
  { unfold stored_row. cbn [db users pk u1 scrubbed].
    rewrite Hk. now apply saved_rows_find. }
  split.
  { apply (delete__run (to_row u1) _ k EmptyString); [exact Hk | exact Hrow |].
    cbn [with_clock db users clock].
    rewrite (constraints_ok_saved u1 _ k) by exact Hk.
    rewrite (constraints_ok_ext u1) by
      (try reflexivity; apply scrubbed_lengths_ext; reflexivity).
    exact Hc. }
  unfold stored_row.
  cbn [with_clock clock db users pk scrubbed deleted deleted_at to_row
       set_mail set_photo u1].
  rewrite Hk, (saved_rows_find _ k) by exact Hk.
  repeat split; congruence.
Qed.

Lemma delete__again_overwrites_deleted_at_witness :
  pk ann = Some 1
  /\ delete_ ann ann_world
     = (Ok (scrubbed 500 ann), snd (delete_ ann ann_world))
  /\ exists r1 u2 w2,
       stored_row (scrubbed 500 ann) (snd (delete_ ann ann_world)) = Some r1
       /\ delete_ r1 (with_clock 900 (snd (delete_ ann ann_world)))
          = (Ok u2, w2)
       /\ deleted (scrubbed 500 ann) = true
       /\ deleted_at (scrubbed 500 ann) = Some (clock ann_world)
       /\ deleted u2 = true /\ deleted_at u2 = Some 900%Z
       /\ option_map deleted_at (stored_row u2 w2) = Some (Some 900%Z)
       /\ (deleted_at u2 = deleted_at (scrubbed 500 ann)
           <-> 900%Z = clock ann_world).
Proof.
  split; [reflexivity|]. split; [vm_compute; reflexivity|].
  apply (delete__again_overwrites_deleted_at ann ann_world 1);
    [reflexivity | vm_compute; reflexivity].
Defined.

(** C5, the claim as stated fails: deleted at time 500, read again from
    its row and deleted again at time 900, the account ends with
    deleted_at 900, in the object and in the row. *)
Lemma delete__twice_moves_deleted_at :
  exists u1 w1 r1 u2 w2,
    delete_ ann ann_world = (Ok u1, w1)
    /\ stored_row u1 w1 = Some r1
    /\ delete_ r1 (with_clock 900 w1) = (Ok u2, w2)
    /\ deleted u2 = true
    /\ deleted_at u1 = Some 500%Z
    /\ deleted_at u2 = Some 900%Z
    /\ option_map deleted_at (stored_row u2 w2) = Some (Some 900%Z)
    /\ deleted_at u2 <> deleted_at u1.
Proof.
  do 5 eexists. split; [vm_compute; reflexivity|].
  split; [vm_compute; reflexivity|].
  split; [vm_compute; reflexivity|].
  repeat split. discriminate.
Qed.


(** ** Creation and lookup *)

Lemma find_app_unused (k : nat) (u : User) (rows : list User) :
  existsb (same_pk k) rows = false ->
  same_pk k u = true ->
  find (same_pk k) (rows ++ [u]) = Some u.
Proof.
  intros Hex Hu. induction rows as [|r rows IH]; simpl in *.
  - now rewrite Hu.
  - apply orb_false_iff in Hex as [E Hex]. rewrite E. auto.
Qed.

Lemma filter_none {A : Type} (f : A -> bool) (l : list A) :
  (forall a, In a l -> f a = false) -> filter f l = [].
Proof.
  induction l as [|a l IH]; simpl; intro H; auto.
  rewrite (H a) by now left. apply IH. intros b Hb. apply H. now right.
Qed.

(** C6, as amended: for every ASCII email E without surrounding
    whitespace and every store of ASCII emails in which no account's email
    equals E up to case, _create_user with a display name, without a
    primary key among the keyword arguments and with values that fit their
    columns succeeds; the normalized E is in both the canonical and the
    pending slot, the new account has exactly one pending
    EMAIL_VERIFICATION code, mail_verified is false, and the lookup by
    natural key of E.upper() returns the row of the created account. *)
Theorem create_user_then_lookup
    (e : string) (password : option string) (d : string) (is_active : bool)
    (extra : ExtraFields) (w : World) :
  Text.is_ascii e = true ->
  Text.strip e = e ->
  xf_pk extra = None ->
  values_ok (new_user e password (Some d) is_active extra) = true ->
  ascii_emails w ->
  email_unused e w ->
  exists u w',
    _create_user (Some e) password (Some d) is_active extra w = (Ok u, w')
    /\ email u = Some (normalize_email e)
    /\ unverified_email u = Some (normalize_email e)
    /\ stored_row u w' = Some (to_row u)
    /\ count_codes u EMAIL_VERIFICATION w' = 1
    /\ mail_verified u = false
    /\ get_by_natural_key (Text.upper e) w' = (Ok (to_row u), w').
Proof.
  intros _ Hs Hxf Hl _ Hun.
  pose proof (_create_user_run e password d is_active extra w Hs Hxf Hl Hun)
    as H.
  cbn zeta in H. do 2 eexists. split; [exact H|].
  split; [reflexivity|]. split; [reflexivity|]. split.
  { unfold stored_row. cbn [pk created set_mail_verified set_pk db users].
    apply find_app_unused; [apply fresh_pk_unused|].
    unfold same_pk. cbn. apply Nat.eqb_refl. }
  split.
  - unfold count_codes, pending_codes. cbn [db codes].
    now rewrite (pending_reissued _ _ (fresh_pk (users (db w)))).
  - split; [reflexivity|].
    unfold get_by_natural_key. cbn [db users].
    rewrite filter_app, filter_none.
    + cbn [filter app]. unfold email_iexact at 1.
      cbn [email created set_mail_verified set_pk set_password
           set_password_field model to_row set_mail set_photo].
      now rewrite (iexact_normalize_email e Hs).
    + intros r Hr. specialize (Hun r Hr). unfold email_iexact in *.
      destruct (email r); auto. now rewrite iexact_upper.
Qed.

Lemma create_user_then_lookup_witness :
  Text.is_ascii "Bob@X.com" = true
  /\ Text.strip "Bob@X.com" = "Bob@X.com"
  /\ xf_pk no_extra_fields = None
  /\ values_ok (new_user "Bob@X.com" (Some "pw") (Some "Bob") true
                   no_extra_fields) = true
  /\ ascii_emails ann_world
  /\ email_unused "Bob@X.com" ann_world
  /\ exists u w',
       _create_user (Some "Bob@X.com") (Some "pw") (Some "Bob") true
         no_extra_fields ann_world = (Ok u, w')
       /\ email u = Some (normalize_email "Bob@X.com")
       /\ unverified_email u = Some (normalize_email "Bob@X.com")
       /\ stored_row u w' = Some (to_row u)
       /\ count_codes u EMAIL_VERIFICATION w' = 1
       /\ mail_verified u = false
       /\ get_by_natural_key (Text.upper "Bob@X.com") w'
          = (Ok (to_row u), w').
Proof.
  assert (Ha : ascii_emails ann_world).
  { intros r e [<-|[]] H. injection H as <-. reflexivity. }
  assert (Hun : email_unused "Bob@X.com" ann_world).
  { intros r [<-|[]]. reflexivity. }
  split; [reflexivity|]. split; [reflexivity|]. split; [reflexivity|].
  split; [reflexivity|]. split; [exact Ha|]. split; [exact Hun|].
  apply (create_user_then_lookup "Bob@X.com" (Some "pw") "Bob" true
           no_extra_fields ann_world);
    [reflexivity | reflexivity | reflexivity | reflexivity | exact Ha
     | exact Hun].
Defined.

(** C6, the claim as stated fails, in two ways.  An email given with a
    leading space is stored stripped, so that the lookup of its upper-case
    form, space included, finds no account.  And next to an existing
    account whose email differs in case only, the new account is created
    and the lookup then finds two rows. *)
Lemma create_user_lookup_can_fail :
  (exists u w',
     _create_user (Some " bob@x.com") (Some "pw") (Some "Bob") true
       no_extra_fields ann_world = (Ok u, w')
     /\ email u = Some "bob@x.com"
     /\ fst (get_by_natural_key (Text.upper " bob@x.com") w')
        = Err DoesNotExist)
  /\ (exists u w',
        _create_user (Some "Ann@x.com") (Some "pw") (Some "Ann B") true
          no_extra_fields ann_world = (Ok u, w')
        /\ email u = Some "Ann@x.com"
        /\ fst (get_by_natural_key (Text.upper "Ann@x.com") w')
           = Err MultipleObjectsReturned).
Proof.
  split; do 2 eexists; (split; [vm_compute; reflexivity|]);
    split; reflexivity.
Qed.

(** ** The verification code and the verified flag *)

(** The tables after a successful operation on a saved account: the user
    table is as before, with the flags of the account unchanged, or has
    the returned account written into it; the codes are as before, or
    those of one purpose were deleted, or replaced by a new one; the
    memberships are as before or those of the account are gone. *)
Lemma run_shape (op : Operation) (u : User) (w : World) (u' : User)
    (w' : World) (k : nat) :
  pk u = Some k ->
  run op u w = (Ok u', w') ->
  pk u' = Some k
  /\ ((users (db w') = users (db w)
       /\ mail_verified u' = mail_verified u /\ deleted u' = deleted u)
      \/ users (db w') = saved_rows u' (users (db w)))
  /\ (exists t0,
        codes (db w') = codes (db w)
        \/ codes (db w')
           = filter (fun c => negb (code_matches u t0 c)) (codes (db w))
        \/ codes (db w') = reissued u k t0 w)
  /\ (memberships (db w') = memberships (db w)
      \/ memberships (db w')
         = filter (fun m => negb (refers_to u (gm_user m)))
             (memberships (db w))).
Proof.
  intros Hk H.
  destruct op; cbn [run] in H.
  - destruct (constraints_ok (set_email (unverified_email u) u)
                (users (db w))) eqn:Hc.
    + rewrite (verify_mail_run u w k Hk Hc) in H. injection H as <- <-.
      split; [exact Hk|]. split; [now right|].
      split; [exists EMAIL_VERIFICATION; right; now left|]. now left.
    + pose proof (verify_mail_fail u w Hc) as Hf. rewrite H in Hf.
      discriminate.
  - destruct (constraints_ok u (users (db w))) eqn:Hc.
    + rewrite (_unverify_mail_run u w k Hk Hc) in H. injection H as <- <-.
      split; [exact Hk|]. split; [now right|].
      split; [exists EMAIL_VERIFICATION; right; now right|]. now left.
    + pose proof (_unverify_mail_fail u w k Hk Hc) as Hf. rewrite H in Hf.
      discriminate.
  - destruct (constraints_ok (set_unverified_email unverified_email0 u)
                (users (db w))) eqn:Hc.
    + rewrite (update_email_run unverified_email0 u w k Hk Hc) in H.
      cbn zeta in H. injection H as <- <-.
      split; [exact Hk|]. split; [now right|].
      split; [exists EMAIL_VERIFICATION; right; now right|]. now left.
    + pose proof (update_email_fail unverified_email0 u w k Hk Hc) as Hf.
      rewrite H in Hf. discriminate.
  - destruct (constraints_ok (set_unverified_email (email u) u)
                (users (db w))) eqn:Hc.
    + rewrite (restore_email_run u w k Hk Hc) in H. injection H as <- <-.
      split; [exact Hk|]. split; [now right|].
      split; [exists EMAIL_VERIFICATION; right; now left|]. now left.
    + pose proof (restore_email_fail u w Hc) as Hf. rewrite H in Hf.
      discriminate.
  - unfold update_language, ret in H. injection H as <- <-.
    split; [exact Hk|]. split; [left; repeat split|].
    split; [exists EMAIL_VERIFICATION; now left|]. now left.
  - destruct (constraints_ok u (users (db w))) eqn:Hc.
    + rewrite (send_mail_verification_code_run u w k Hk Hc) in H.
      injection H as <- <-.
      split; [exact Hk|]. split; [now right|].
      split; [exists EMAIL_VERIFICATION; right; now right|]. now left.
    + pose proof (send_mail_verification_code_fail u w k Hk Hc) as Hf.
      rewrite H in Hf. discriminate.
  - rewrite (send_account_deletion_verification_code_run u w k Hk) in H.
    injection H as <- <-.
    split; [exact Hk|]. split; [left; repeat split|].
    split; [exists ACCOUNT_DELETE; right; now right|]. now left.
  - rewrite (reset_password_run u w k Hk) in H. injection H as <- <-.
    split; [exact Hk|]. split; [left; repeat split|].
    split; [exists PASSWORD_RESET; right; now right|]. now left.
  - destruct (constraints_ok u (users (db w))) eqn:Hc.
    + rewrite (change_password_run new_password u w k Hk Hc) in H.
      injection H as <- <-.
      split; [exact Hk|]. split; [now right|].
      split; [exists PASSWORD_RESET; right; now left|]. now left.
    + pose proof (change_password_fail new_password u w Hc) as Hf.
      rewrite H in Hf. discriminate.
  - destruct (delete__cases u w u' w' k Hk H) as [name [Hp Hc]].
    rewrite (delete__run u w k name Hk Hp Hc) in H. injection H as <- <-.
    split; [exact Hk|]. split; [now right|].
    split; [exists EMAIL_VERIFICATION; now left|]. now right.
Qed.







(** * Further properties of the methods *)

(** ** create_superuser *)

(** X1: for an ASCII email without surrounding whitespace that no
    account in a store of ASCII emails holds up to case, create_superuser
    without a primary key among the keyword arguments and with values that
    fit their columns (the email serves as display name) succeeds and
    returns a saved account with is_superuser and is_staff set, for which
    has_perm and has_module_perms answer yes; its display name is the
    email as given, its canonical email the normalized one, it is
    unverified with one pending EMAIL_VERIFICATION code, and the stored
    row carries the elevated flags. *)
Theorem create_superuser_elevates
    (e : string) (password0 : option string) (is_active0 : bool)
    (extra : ExtraFields) (w : World) :
  Text.is_ascii e = true ->
  Text.strip e = e ->
  xf_pk extra = None ->
  values_ok (new_user e password0 (Some e) is_active0 extra) = true ->
  ascii_emails w ->
  email_unused e w ->
  exists u w',
    create_superuser (Some e) password0 is_active0 extra w = (Ok u, w')
    /\ is_superuser u = true /\ is_staff u = true
    /\ has_perm u = true /\ has_module_perms u = true
    /\ display_name u = Some e
    /\ email u = Some (normalize_email e)
    /\ mail_verified u = false
    /\ count_codes u EMAIL_VERIFICATION w' = 1
    /\ stored_row u w' = Some (to_row u).
Proof.
  intros _ Hs Hxf Hl _ Hun.
  pose proof (_create_user_run e password0 e is_active0 extra w Hs Hxf Hl Hun)
    as H.
  cbn zeta in H.
  set (k := fresh_pk (users (db w))) in *.
  set (u0 := created e password0 (Some e) is_active0 extra k) in *.
  set (u1 := set_is_staff true (set_is_superuser true u0)).
  unfold create_superuser, bind. rewrite H. fold u1.
  assert (Hc : constraints_ok u1 (users (db w) ++ [to_row u0]) = true).
  { unfold constraints_ok.
    change (values_ok u1)
      with (values_ok (new_user e password0 (Some e) is_active0 extra)).
    rewrite Hl. cbn [andb].
    apply (integrity_ok_appended e u1 (to_row u0) k); auto; reflexivity. }
  rewrite (save_run u1 _ k) by (try reflexivity; exact Hc).
  do 2 eexists. split; [reflexivity|].
  unfold count_codes, pending_codes, stored_row. cbn [db users codes put_users
    with_db].
  change (pk u1) with (Some k). cbv iota beta.
  rewrite (saved_rows_find u1 k) by reflexivity.
  rewrite (pending_reissued u1 u0 k) by reflexivity.
  repeat split.
Qed.

Lemma create_superuser_elevates_witness :
  Text.is_ascii "root@x.com" = true
  /\ Text.strip "root@x.com" = "root@x.com"
  /\ xf_pk no_extra_fields = None
  /\ values_ok (new_user "root@x.com" (Some "pw") (Some "root@x.com") true
                   no_extra_fields) = true
  /\ ascii_emails two_world
  /\ email_unused "root@x.com" two_world
  /\ exists u w',
       create_superuser (Some "root@x.com") (Some "pw") true no_extra_fields
         two_world = (Ok u, w')
       /\ is_superuser u = true /\ is_staff u = true
       /\ has_perm u = true /\ has_module_perms u = true
       /\ display_name u = Some "root@x.com"
       /\ email u = Some (normalize_email "root@x.com")
       /\ mail_verified u = false
       /\ count_codes u EMAIL_VERIFICATION w' = 1
       /\ stored_row u w' = Some (to_row u).
Proof.
  assert (Ha : ascii_emails two_world).
  { intros r e [<-|[<-|[]]] H; injection H as <-; reflexivity. }
  assert (Hun : email_unused "root@x.com" two_world).
  { intros r [<-|[<-|[]]]; reflexivity. }
  split; [reflexivity|]. split; [reflexivity|]. split; [reflexivity|].
  split; [reflexivity|]. split; [exact Ha|]. split; [exact Hun|].
  apply (create_superuser_elevates "root@x.com" (Some "pw") true
           no_extra_fields two_world);
    [reflexivity | reflexivity | reflexivity | reflexivity | exact Ha
     | exact Hun].
Defined.

(** ** Passwords and the codes of the other purposes *)

(** X2: change_password on a saved account whose row can be written
    stores the hash of the new password (an unusable one for [None]) in
    the object and in the row, leaves no pending PASSWORD_RESET code,
    leaves the codes of the other two purposes and the email state alone,
    and hands the mailer the 'passwordchange' mail. *)
Theorem change_password_consumes_reset_code
    (new_password0 : option string) (self : User) (w : World) (k : nat) :
  pk self = Some k ->
  constraints_ok self (users (db w)) = true ->
  exists u' w',
    change_password new_password0 self w = (Ok u', w')
    /\ password u'
       = match new_password0 with Some p => Hashed p | None => Unusable end
    /\ option_map password (stored_row u' w') = Some (password u')
    /\ count_codes u' PASSWORD_RESET w' = 0
    /\ pending_codes u' EMAIL_VERIFICATION w'
       = pending_codes self EMAIL_VERIFICATION w
    /\ pending_codes u' ACCOUNT_DELETE w'
       = pending_codes self ACCOUNT_DELETE w
    /\ email u' = email self
    /\ unverified_email u' = unverified_email self
    /\ mail_verified u' = mail_verified self
    /\ outbox w' = outbox w ++ [mkMail "passwordchange" u' NoArg].
Proof.
  intros Hk Hc. do 2 eexists.
  split; [apply (change_password_run new_password0 self w k Hk Hc)|].
  unfold count_codes, pending_codes, stored_row.
  cbn [db users codes outbox pk set_password set_password_field password
       email unverified_email mail_verified].
  rewrite Hk, (saved_rows_find _ k) by exact Hk.
  rewrite pending_deleted by reflexivity.
  rewrite !pending_deleted_other by (try reflexivity; discriminate).
  repeat split.
Qed.

Lemma change_password_consumes_reset_code_witness :
  pk ann = Some 1
  /\ constraints_ok ann (users (db two_world)) = true
  /\ exists u' w',
       change_password (Some "new secret") ann two_world = (Ok u', w')
       /\ password u' = Hashed "new secret"
       /\ option_map password (stored_row u' w') = Some (password u')
       /\ count_codes u' PASSWORD_RESET w' = 0
       /\ pending_codes u' EMAIL_VERIFICATION w'
          = pending_codes ann EMAIL_VERIFICATION two_world
       /\ pending_codes u' ACCOUNT_DELETE w'
          = pending_codes ann ACCOUNT_DELETE two_world
       /\ email u' = email ann
       /\ unverified_email u' = unverified_email ann
       /\ mail_verified u' = mail_verified ann
       /\ outbox w'
          = outbox two_world ++ [mkMail "passwordchange" u' NoArg].
Proof.
  split; [reflexivity|]. split; [reflexivity|].
  apply (change_password_consumes_reset_code (Some "new secret") ann
           two_world 1); reflexivity.
Defined.

(** X3: send_account_deletion_verification_code on a saved account
    leaves exactly one pending ACCOUNT_DELETE code, the one just issued,
    whose token is the one in the link of the mail it sends; it deletes
    nothing else: the account, the user table, the memberships and the
    codes of the other purposes are as before. *)
Theorem send_account_deletion_verification_code_issues_one
    (self : User) (w : World) (k : nat) :
  pk self = Some k ->
  exists w',
    send_account_deletion_verification_code self w = (Ok self, w')
    /\ pending_codes self ACCOUNT_DELETE w'
       = [mkCode k ACCOUNT_DELETE (tokens w)]
    /\ pending_codes self EMAIL_VERIFICATION w'
       = pending_codes self EMAIL_VERIFICATION w
    /\ pending_codes self PASSWORD_RESET w'
       = pending_codes self PASSWORD_RESET w
    /\ users (db w') = users (db w)
    /\ memberships (db w') = memberships (db w)
    /\ outbox w'
       = outbox w ++ [mkMail "accountdelete_request" self
                        (Url "/#/user/delete?code=" (tokens w))].
Proof.
  intros Hk. eexists.
  split; [apply (send_account_deletion_verification_code_run self w k Hk)|].
  unfold pending_codes. cbn [db users codes memberships outbox].
  rewrite (pending_reissued self self k) by exact Hk.
  rewrite !(pending_reissued_other self self k)
    by (try reflexivity; discriminate).
  repeat split.
Qed.

Lemma send_account_deletion_verification_code_issues_one_witness :
  pk bob = Some 2
  /\ exists w',
       send_account_deletion_verification_code bob two_world = (Ok bob, w')
       /\ pending_codes bob ACCOUNT_DELETE w'
          = [mkCode 2 ACCOUNT_DELETE (tokens two_world)]
       /\ pending_codes bob EMAIL_VERIFICATION w'
          = pending_codes bob EMAIL_VERIFICATION two_world
       /\ pending_codes bob PASSWORD_RESET w'
          = pending_codes bob PASSWORD_RESET two_world
       /\ users (db w') = users (db two_world)
       /\ memberships (db w') = memberships (db two_world)
       /\ outbox w'
          = outbox two_world
            ++ [mkMail "accountdelete_request" bob
                  (Url "/#/user/delete?code=" (tokens two_world))].
Proof.
  split; [reflexivity|].
  apply (send_account_deletion_verification_code_issues_one bob two_world 2).
  reflexivity.
Defined.

(** X4: any number of reset_password calls on a saved account changes
    neither the account object, nor the user table, nor the memberships,
    nor the pending EMAIL_VERIFICATION and ACCOUNT_DELETE codes; each call
    sends one mail. *)
Theorem reset_password_touches_only_its_code
    (n : nat) (self : User) (w : World) (k : nat) :
  pk self = Some k ->
  exists w',
    reset_password_times n self w = (Ok self, w')
    /\ pending_codes self EMAIL_VERIFICATION w'
       = pending_codes self EMAIL_VERIFICATION w
    /\ pending_codes self ACCOUNT_DELETE w'
       = pending_codes self ACCOUNT_DELETE w
    /\ users (db w') = users (db w)
    /\ memberships (db w') = memberships (db w)
    /\ length (outbox w') = length (outbox w) + n.
Proof.
  intro Hk. revert w. induction n as [|n IH]; intro w.
  - exists w. cbn. rewrite Nat.add_0_r. repeat split.
  - destruct (IH (snd (reset_password self w)))
      as [w' [Hrun [Hev [Had [Hus [Hms Hob]]]]]].
    rewrite (reset_password_run self w k Hk) in Hrun, Hev, Had, Hus, Hms, Hob.
    cbn [snd] in Hrun, Hev, Had, Hus, Hms, Hob.
    exists w'. split.
    + cbn [reset_password_times]. unfold bind at 1.
      rewrite (reset_password_run self w k Hk). exact Hrun.
    + rewrite Hev, Had, Hus, Hms, Hob. unfold pending_codes.
      cbn [db users codes memberships outbox].
      rewrite !(pending_reissued_other self self k)
        by (try reflexivity; discriminate).
      rewrite length_app. cbn [length]. repeat split. lia.
Qed.

Lemma reset_password_touches_only_its_code_witness :
  pk bob = Some 2
  /\ exists w',
       reset_password_times 2 bob two_world = (Ok bob, w')
       /\ pending_codes bob EMAIL_VERIFICATION w'
          = pending_codes bob EMAIL_VERIFICATION two_world
       /\ pending_codes bob ACCOUNT_DELETE w'
          = pending_codes bob ACCOUNT_DELETE two_world
       /\ users (db w') = users (db two_world)
       /\ memberships (db w') = memberships (db two_world)
       /\ length (outbox w') = length (outbox two_world) + 2.
Proof.
  split; [reflexivity|].
  apply (reset_password_touches_only_its_code 2 bob two_world 2).
  reflexivity.
Defined.

(** ** Failing writes *)

Lemma email_taken_by (u r : User) (e : string) (rows : list User) :
  In r rows -> pk r <> pk u -> email r = Some e -> email u = Some e ->
  email_taken u rows = true.
Proof.
  intros Hin Hpk Hr Hu. unfold email_taken. rewrite Hu.
  apply existsb_exists. exists r. split; [exact Hin|].
  rewrite Hr. simpl. rewrite String.eqb_refl, andb_true_r.
  destruct (option_nat_eqb (pk r) (pk u)) eqn:E; auto.
  apply option_nat_eqb_eq in E. contradiction.
Qed.

(** X5: when another account already holds the address that is pending
    for this one, and the values of the account are ones their columns
    take, verify_mail raises IntegrityError and leaves the world, the
    database with it, exactly as it was: the stored row is not promoted
    and the pending EMAIL_VERIFICATION code, deleted at the start of the
    method, is back in the table.  (The instance in memory was assigned
    the new email and the verified flag before the write failed; this is a
    statement about what is stored.) *)
Theorem verify_mail_taken_address_rolls_back
    (self r : User) (w : World) (e : string) :
  unverified_email self = Some e ->
  values_ok (set_email (unverified_email self) self) = true ->
  In r (users (db w)) -> pk r <> pk self -> email r = Some e ->
  verify_mail self w = (Err IntegrityError, w).
Proof.
  intros Hu Hl Hin Hpk Hr.
  assert (Hc : constraints_ok (set_email (unverified_email self) self)
                 (users (db w)) = false).
  { unfold constraints_ok, integrity_ok.
    rewrite (email_taken_by _ r e) by (auto; rewrite Hu; reflexivity).
    now rewrite !andb_false_r. }
  unfold_methods. cbn.
  rewrite save_fail by (cbn; exact Hc).
  rewrite save_error_values_ok by exact Hl.
  destruct w as [d st ob cl tk]. reflexivity.
Qed.

Lemma verify_mail_taken_address_rolls_back_witness :
  unverified_email bob = Some "ann@x.com"
  /\ values_ok (set_email (unverified_email bob) bob) = true
  /\ In ann (users (db two_world))
  /\ pk ann <> pk bob
  /\ email ann = Some "ann@x.com"
  /\ verify_mail bob two_world = (Err IntegrityError, two_world).
Proof.
  assert (Hin : In ann (users (db two_world))) by (left; reflexivity).
  assert (Hpk : pk ann <> pk bob) by discriminate.
  split; [reflexivity|]. split; [reflexivity|]. split; [exact Hin|].
  split; [exact Hpk|]. split; [reflexivity|].
  apply (verify_mail_taken_address_rolls_back bob ann two_world "ann@x.com");
    [reflexivity | reflexivity | exact Hin | exact Hpk | reflexivity].
Defined.

(** X6: when the row of a saved account cannot be written, update_email
    raises the exception of the failed save (DataError when a value, the
    new address among them, does not fit its column, IntegrityError
    otherwise) and the database is as before the call (the codes deleted
    and issued on the way are rolled back), but the change notice, sent
    before the write was tried, has gone to the mailer. *)
Theorem update_email_failure_keeps_the_notice
    (new : option string) (self : User) (w : World) (k : nat) :
  pk self = Some k ->
  constraints_ok (set_unverified_email new self) (users (db w)) = false ->
  exists w',
    update_email new self w
    = (Err (save_error (set_unverified_email new self)), w')
    /\ db w' = db w
    /\ outbox w'
       = outbox w ++ [mkMail "changemail_notice"
                        (set_unverified_email new self) NoArg].
Proof.
  intros Hk Hc.
  eexists. split.
  - unfold update_email, send_mail_verification_code.
    unfold_methods. cbn [pk set_unverified_email]. rewrite Hk.
    cbn [db users codes memberships with_db storage outbox clock tokens].
    rewrite save_fail by exact Hc.
    reflexivity.
  - split; reflexivity.
Qed.

Lemma update_email_failure_keeps_the_notice_witness :
  pk (set_email (Some "bob@x.com") ann) = Some 1
  /\ constraints_ok (set_unverified_email (Some "ann@y.org")
                       (set_email (Some "bob@x.com") ann))
       (users (db two_world)) = false
  /\ exists w',
       update_email (Some "ann@y.org") (set_email (Some "bob@x.com") ann)
         two_world = (Err IntegrityError, w')
       /\ db w' = db two_world
       /\ outbox w'
          = outbox two_world
            ++ [mkMail "changemail_notice"
                  (set_unverified_email (Some "ann@y.org")
                     (set_email (Some "bob@x.com") ann)) NoArg].
Proof.
  split; [reflexivity|]. split; [reflexivity|].
  apply (update_email_failure_keeps_the_notice (Some "ann@y.org")
           (set_email (Some "bob@x.com") ann) two_world 1); reflexivity.
Defined.

(** ** Deletion, continued *)

Lemma delete__effects_witness :
  pk ann = Some 1
  /\ photo ann = Some "ann.jpg"
  /\ constraints_ok ann (users (db two_world)) = true
  /\ exists u' w',
       delete_ ann two_world = (Ok u', w')
       /\ memberships_of u' w' = []
       /\ description u' = "" /\ password u' = Unusable
       /\ unverified_email u' = None
       /\ is_active u' = false /\ is_staff u' = false
       /\ mail_verified u' = false
       /\ ("ann.jpg" <> EmptyString ->
           photo u' = None /\ files_of "ann.jpg" w' = [])
       /\ ("ann.jpg" = EmptyString ->
           photo u' = Some EmptyString /\ storage w' = storage two_world)
       /\ deleted u' = true /\ deleted_at u' = Some (clock two_world)
       /\ stored_row u' w' = Some (to_row u')
       /\ email u' = email ann
       /\ codes (db w') = codes (db two_world).
Proof.
  split; [reflexivity|]. split; [reflexivity|]. split; [reflexivity|].
  apply (delete__effects ann two_world 1 "ann.jpg"); reflexivity.
Defined.

(** Every row that carries the key of the saved account is, after the
    save, the row just written. *)
Lemma saved_rows_same_pk (u r : User) (k : nat) (rows : list User) :
  pk u = Some k ->
  In r (saved_rows u rows) -> pk r = Some k -> r = to_row u.
Proof.
  intros Hk Hin Hr. unfold saved_rows in Hin. rewrite Hk in Hin.
  assert (Hs : same_pk k r = true).
  { unfold same_pk. rewrite Hr. simpl. apply Nat.eqb_refl. }
  destruct (existsb (same_pk k) rows) eqn:Ex.
  - apply in_map_iff in Hin as [r0 [E Hin]].
    destruct (same_pk k r0) eqn:E0; [now subst|].
    subst r0. congruence.
  - apply in_app_or in Hin as [Hin|[<-|[]]]; [|reflexivity].
    assert (Hex : existsb (same_pk k) rows = true).
    { apply existsb_exists. now exists r. }
    congruence.
Qed.

(** X8: after delete_ succeeds on a saved account, no row with the key of
    that account is among the rows active() returns. *)
Theorem delete__removes_from_active
    (self : User) (w : World) (k : nat) (u' : User) (w' : World)
    (r : User) (rs : list User) :
  pk self = Some k ->
  delete_ self w = (Ok u', w') ->
  fst (active w') = Ok rs ->
  In r rs -> pk r <> Some k.
Proof.
  intros Hk Hd Ha Hin Hr.
  destruct (delete__cases self w u' w' k Hk Hd) as [name [Hp Hc]].
  rewrite (delete__run self w k name Hk Hp Hc) in Hd. injection Hd as <- <-.
  unfold active in Ha. cbn [fst db users] in Ha. injection Ha as <-.
  apply filter_In in Hin as [Hin Hf].
  rewrite (saved_rows_same_pk (scrubbed (clock w) self) r k _ Hk Hin Hr)
    in Hf.
  discriminate.
Qed.

Lemma delete__removes_from_active_witness :
  pk ann = Some 1
  /\ delete_ ann two_world
     = (Ok (scrubbed 700 ann), snd (delete_ ann two_world))
  /\ fst (active (snd (delete_ ann two_world))) = Ok [bob]
  /\ In bob [bob]
  /\ pk bob <> Some 1.
Proof.
  assert (Hd : delete_ ann two_world
               = (Ok (scrubbed 700 ann), snd (delete_ ann two_world)))
    by (vm_compute; reflexivity).
  assert (Ha : fst (active (snd (delete_ ann two_world))) = Ok [bob])
    by (vm_compute; reflexivity).
  assert (Hin : In bob [bob]) by (left; reflexivity).
  split; [reflexivity|]. split; [exact Hd|]. split; [exact Ha|].
  split; [exact Hin|].
  apply (delete__removes_from_active ann two_world 1 (scrubbed 700 ann)
           (snd (delete_ ann two_world)) bob [bob]);
    [reflexivity | exact Hd | exact Ha | exact Hin].
Defined.

(** X9: delete_ does not touch is_superuser: for the deleted account
    has_perm and has_module_perms answer what they answered before, and
    the stored row keeps the flag. *)
Theorem delete__keeps_superuser
    (self : User) (w : World) (k : nat) (u' : User) (w' : World) :
  pk self = Some k ->
  delete_ self w = (Ok u', w') ->
  has_perm u' = has_perm self
  /\ has_module_perms u' = has_module_perms self
  /\ option_map is_superuser (stored_row u' w') = Some (is_superuser self).
Proof.
  intros Hk Hd.
  destruct (delete__cases self w u' w' k Hk Hd) as [name [Hp Hc]].
  rewrite (delete__run self w k name Hk Hp Hc) in Hd. injection Hd as <- <-.
  unfold stored_row. cbn [pk scrubbed db users].
  rewrite Hk, (saved_rows_find _ k) by exact Hk.
  repeat split.
Qed.

Lemma delete__keeps_superuser_witness :
  pk (set_is_superuser true ann) = Some 1
  /\ delete_ (set_is_superuser true ann) two_world
     = (Ok (scrubbed 700 (set_is_superuser true ann)),
        snd (delete_ (set_is_superuser true ann) two_world))
  /\ has_perm (scrubbed 700 (set_is_superuser true ann)) = true
  /\ has_perm (scrubbed 700 (set_is_superuser true ann))
     = has_perm (set_is_superuser true ann)
  /\ has_module_perms (scrubbed 700 (set_is_superuser true ann))
     = has_module_perms (set_is_superuser true ann)
  /\ option_map is_superuser
       (stored_row (scrubbed 700 (set_is_superuser true ann))
          (snd (delete_ (set_is_superuser true ann) two_world)))
     = Some (is_superuser (set_is_superuser true ann)).
Proof.
  assert (Hd : delete_ (set_is_superuser true ann) two_world
               = (Ok (scrubbed 700 (set_is_superuser true ann)),
                  snd (delete_ (set_is_superuser true ann) two_world)))
    by (vm_compute; reflexivity).
  split; [reflexivity|]. split; [exact Hd|]. split; [reflexivity|].
  apply (delete__keeps_superuser (set_is_superuser true ann) two_world 1);
    [reflexivity | exact Hd].
Defined.

(** ** What every operation leaves alone *)

Lemma CodeType_eq_dec (a b : CodeType) : {a = b} + {a <> b}.
Proof. decide equality. Qed.

(** X11: one pending code per purpose is an invariant of every
    operation: if a saved account has at most one pending code of each
    purpose, it still has at most one of each after any successful
    operation. *)
Theorem at_most_one_code_per_purpose
    (op : Operation) (u : User) (w : World) (u' : User) (w' : World)
    (k : nat) :
  pk u = Some k ->
  run op u w = (Ok u', w') ->
  (forall t, count_codes u t w <= 1) ->
  forall t, count_codes u' t w' <= 1.
Proof.
  intros Hk H Hinv t.
  destruct (run_shape op u w u' w' k Hk H)
    as [Hk' [_ [[t0 [Hc | [Hc | Hc]]] _]]];
    unfold count_codes, pending_codes; rewrite Hc;
    specialize (Hinv t); unfold count_codes, pending_codes in Hinv.
  - rewrite (filter_ext (code_matches u' t) (code_matches u t))
      by (intro c; apply code_matches_pk; congruence).
    exact Hinv.
  - destruct (CodeType_eq_dec t t0) as [->|Hne].
    + rewrite pending_deleted by congruence. simpl. lia.
    + rewrite pending_deleted_other by congruence.
      rewrite (filter_ext (code_matches u' t) (code_matches u t))
        by (intro c; apply code_matches_pk; congruence).
      exact Hinv.
  - destruct (CodeType_eq_dec t t0) as [->|Hne].
    + rewrite (pending_reissued u' u k) by assumption. simpl. lia.
    + rewrite (pending_reissued_other u' u k) by congruence.
      rewrite (filter_ext (code_matches u' t) (code_matches u t))
        by (intro c; apply code_matches_pk; congruence).
      exact Hinv.
Qed.

Lemma at_most_one_code_per_purpose_witness :
  pk bob = Some 2
  /\ run (UpdateEmail (Some "bob@y.org")) bob two_world
     = (Ok (set_mail_verified false
              (set_unverified_email (Some "bob@y.org") bob)),
        snd (run (UpdateEmail (Some "bob@y.org")) bob two_world))
  /\ (forall t, count_codes bob t two_world <= 1)
  /\ forall t,
       count_codes
         (set_mail_verified false
            (set_unverified_email (Some "bob@y.org") bob)) t
         (snd (run (UpdateEmail (Some "bob@y.org")) bob two_world)) <= 1.
Proof.
  assert (Hr : run (UpdateEmail (Some "bob@y.org")) bob two_world
               = (Ok (set_mail_verified false
                        (set_unverified_email (Some "bob@y.org") bob)),
                  snd (run (UpdateEmail (Some "bob@y.org")) bob two_world)))
    by (vm_compute; reflexivity).
  assert (Hi : forall t, count_codes bob t two_world <= 1).
  { intros []; vm_compute; lia. }
  split; [reflexivity|]. split; [exact Hr|]. split; [exact Hi|].
  apply (at_most_one_code_per_purpose (UpdateEmail (Some "bob@y.org")) bob
           two_world _ _ 2); [reflexivity | exact Hr | exact Hi].
Defined.

(** The rows, codes and memberships of an account with another key. *)
Lemma refers_to_other (u v : User) (k j n : nat) :
  pk u = Some k -> pk v = Some j -> j <> k ->
  refers_to v n = true -> refers_to u n = false.
Proof.
  unfold refers_to. intros Hu Hv Hne H. rewrite Hu, Hv in *. simpl in *.
  apply Nat.eqb_eq in H. subst n. now apply Nat.eqb_neq.
Qed.

Lemma pending_other_account (u v : User) (k j : nat) (t t0 : CodeType)
    (l : list VerificationCode) :
  pk u = Some k -> pk v = Some j -> j <> k ->
  filter (code_matches v t) (filter (fun c => negb (code_matches u t0 c)) l)
  = filter (code_matches v t) l.
Proof.
  intros Hu Hv Hne. induction l as [|c l IH]; simpl; auto.
  destruct (code_matches v t c) eqn:Ev.
  - assert (Eu : code_matches u t0 c = false).
    { unfold code_matches in *. apply andb_true_iff in Ev as [Ev _].
      now rewrite (refers_to_other u v k j _ Hu Hv Hne Ev). }
    rewrite Eu. simpl. now rewrite Ev, IH.
  - destruct (code_matches u t0 c); simpl; [|rewrite Ev]; exact IH.
Qed.

Lemma find_saved_rows_other (u : User) (k j : nat) (rows : list User) :
  pk u = Some k -> j <> k ->
  find (same_pk j) (saved_rows u rows) = find (same_pk j) rows.
Proof.
  intros Hk Hne. unfold saved_rows. rewrite Hk.
  assert (Hself : same_pk j (to_row u) = false).
  { unfold same_pk. simpl. rewrite Hk. simpl. apply Nat.eqb_neq. auto. }
  destruct (existsb (same_pk k) rows).
  - induction rows as [|r rows IH]; simpl; auto.
    destruct (same_pk k r) eqn:Ek.
    + rewrite Hself.
      assert (Ej : same_pk j r = false).
      { unfold same_pk in *. apply option_nat_eqb_eq in Ek. rewrite Ek.
        simpl. apply Nat.eqb_neq. auto. }
      now rewrite Ej.
    + destruct (same_pk j r); auto.
  - induction rows as [|r rows IH]; simpl.
    + now rewrite Hself.
    + destruct (same_pk j r); auto.
Qed.

(** X12: a successful operation on one saved account touches no other
    account: for every account with another key the pending codes of each
    purpose, the stored row and the group memberships are the same after
    the operation as before. *)
Theorem other_accounts_untouched
    (op : Operation) (u : User) (w : World) (u' : User) (w' : World)
    (k : nat) (v : User) (j : nat) :
  pk u = Some k ->
  run op u w = (Ok u', w') ->
  pk v = Some j -> j <> k ->
  (forall t, pending_codes v t w' = pending_codes v t w)
  /\ stored_row v w' = stored_row v w
  /\ memberships_of v w' = memberships_of v w.
Proof.
  intros Hk H Hv Hne.
  destruct (run_shape op u w u' w' k Hk H)
    as [Hk' [Hus [[t0 Hcs] Hms]]].
  split; [|split].
  - intro t. unfold pending_codes.
    destruct Hcs as [Hc | [Hc | Hc]]; rewrite Hc; auto.
    + now apply (pending_other_account u v k j).
    + unfold reissued. rewrite filter_app.
      rewrite (pending_other_account u v k j) by assumption.
      simpl. unfold code_matches at 2, refers_to. simpl. rewrite Hv. simpl.
      apply Nat.eqb_neq in Hne. rewrite Hne. simpl. apply app_nil_r.
  - unfold stored_row. rewrite Hv.
    destruct Hus as [[Hu _] | Hu]; rewrite Hu; auto.
    now apply (find_saved_rows_other u' k j).
  - unfold memberships_of.
    destruct Hms as [Hm | Hm]; rewrite Hm; auto. clear Hm.
    induction (memberships (db w)) as [|m ms IH]; simpl; auto.
    destruct (refers_to v (gm_user m)) eqn:Ev.
    + rewrite (refers_to_other u v k j _ Hk Hv Hne Ev). simpl.
      now rewrite Ev, IH.
    + destruct (refers_to u (gm_user m)); simpl; [|rewrite Ev]; exact IH.
Qed.

Lemma other_accounts_untouched_witness :
  pk ann = Some 1
  /\ run Delete ann two_world
     = (Ok (scrubbed 700 ann), snd (run Delete ann two_world))
  /\ pk bob = Some 2
  /\ 2 <> 1
  /\ (forall t,
        pending_codes bob t (snd (run Delete ann two_world))
        = pending_codes bob t two_world)
  /\ stored_row bob (snd (run Delete ann two_world))
     = stored_row bob two_world
  /\ memberships_of bob (snd (run Delete ann two_world))
     = memberships_of bob two_world.
Proof.
  assert (Hr : run Delete ann two_world
               = (Ok (scrubbed 700 ann), snd (run Delete ann two_world)))
    by (vm_compute; reflexivity).
  assert (Hne : 2 <> 1) by lia.
  split; [reflexivity|]. split; [exact Hr|]. split; [reflexivity|].
  split; [exact Hne|].
  apply (other_accounts_untouched Delete ann two_world (scrubbed 700 ann)
           (snd (run Delete ann two_world)) 1 bob 2);
    [reflexivity | exact Hr | reflexivity | exact Hne].
Defined.

(** ** Creation, whatever the keyword arguments *)

(** X14: whenever _create_user succeeds on an ASCII address, whatever
    extra_fields say, the returned account is unverified, its pending and
    its canonical email are both the normalized address, is_active,
    display_name and password are the ones asked for, and the stored row
    is the account returned.  Its key is the one passed among the keyword
    arguments if there is one, and otherwise a key no earlier row
    carries. *)
Theorem _create_user_result
    (email0 password0 display_name0 : option string) (is_active0 : bool)
    (extra : ExtraFields) (w : World) (u : User) (w' : World) :
  (forall e, email0 = Some e -> Text.is_ascii e = true) ->
  _create_user email0 password0 display_name0 is_active0 extra w = (Ok u, w') ->
  exists e k,
    email0 = Some e
    /\ email u = Some (normalize_email e)
    /\ unverified_email u = Some (normalize_email e)
    /\ mail_verified u = false
    /\ is_active u = is_active0
    /\ display_name u = display_name0
    /\ password u
       = match password0 with Some p => Hashed p | None => Unusable end
    /\ pk u = Some k
    /\ stored_row u w' = Some (to_row u)
    /\ (forall k0, xf_pk extra = Some (Some k0) -> k = k0)
    /\ (or_default (xf_pk extra) None = None ->
        forall r, In r (users (db w)) -> pk r <> Some k).
Proof.
  intros _ H. destruct (_create_user_inv _ _ _ _ _ _ _ _ H)
    as [e [-> [Hu [_ [Hrows _]]]]].
  exists e, (new_key extra (users (db w))).
  split; [reflexivity|]. subst u.
  repeat split.
  - unfold stored_row. rewrite Hrows.
    cbn [pk created set_mail_verified set_pk].
    now apply saved_rows_find.
  - intros k0 Hx. unfold new_key. now rewrite Hx.
  - intros Hx r Hin Hr. unfold new_key in Hr. rewrite Hx in Hr.
    pose proof (fresh_pk_above _ r _ Hin Hr). lia.
Qed.

Lemma _create_user_result_witness :
  let extra := mkExtra None None None None (Some "de") (Some true)
                 (Some (Some "other@x.com")) None None None None None in
  let r := _create_user (Some "Carl@X.com") None (Some "Carl") false extra
             two_world in
  let u := created "Carl@X.com" None (Some "Carl") false extra 3 in
  (forall e, Some "Carl@X.com" = Some e -> Text.is_ascii e = true)
  /\ r = (Ok u, snd r)
  /\ exists e k,
       Some "Carl@X.com" = Some e
       /\ email u = Some (normalize_email e)
       /\ unverified_email u = Some (normalize_email e)
       /\ mail_verified u = false
       /\ is_active u = false
       /\ display_name u = Some "Carl"
       /\ password u = Unusable
       /\ pk u = Some k
       /\ stored_row u (snd r) = Some (to_row u)
       /\ (forall k0, xf_pk extra = Some (Some k0) -> k = k0)
       /\ (or_default (xf_pk extra) None = None ->
           forall r0, In r0 (users (db two_world)) -> pk r0 <> Some k).
Proof.
  intros extra r u.
  assert (Ha : forall e, Some "Carl@X.com" = Some e -> Text.is_ascii e = true).
  { intros e H. injection H as <-. reflexivity. }
  assert (Hr : r = (Ok u, snd r)) by (vm_compute; reflexivity).
  split; [exact Ha|]. split; [exact Hr|].
  apply (_create_user_result (Some "Carl@X.com") None (Some "Carl") false
           extra two_world u (snd r)); [exact Ha | exact Hr].
Defined.

(** ** Changing the email and taking the change back *)

(** X15: on a saved, verified account whose pending address is its
    canonical one, and for a new address with which the row can be written
    (one that fits the column), update_email followed by restore_email
    gives back the very same account object; the stored row is that
    account again, there is no pending EMAIL_VERIFICATION code, and
    memberships and the codes of the other purposes are as before. *)
Theorem update_email_restore_email_round_trip
    (new : option string) (self : User) (w : World) (k : nat) :
  pk self = Some k ->
  constraints_ok (set_unverified_email new self) (users (db w)) = true ->
  mail_verified self = true ->
  unverified_email self = email self ->
  exists u1 w1 w2,
    update_email new self w = (Ok u1, w1)
    /\ restore_email u1 w1 = (Ok self, w2)
    /\ stored_row self w2 = Some (to_row self)
    /\ pending_codes self EMAIL_VERIFICATION w2 = []
    /\ pending_codes self PASSWORD_RESET w2
       = pending_codes self PASSWORD_RESET w
    /\ pending_codes self ACCOUNT_DELETE w2
       = pending_codes self ACCOUNT_DELETE w
    /\ memberships (db w2) = memberships (db w).
Proof.
  intros Hk Hc Hv Hu.
  pose proof (update_email_run new self w k Hk Hc) as H1. cbn zeta in H1.
  assert (Hback : set_mail_verified true
                    (set_unverified_email
                       (email (set_mail_verified false
                                 (set_unverified_email new self)))
                       (set_mail_verified false
                          (set_unverified_email new self))) = self).
  { destruct self. cbn in *. subst. reflexivity. }
  do 3 eexists. split; [exact H1|]. split.
  - rewrite (restore_email_run _ _ k); [|exact Hk|].
    + rewrite Hback. reflexivity.
    + cbn [db users]. rewrite (constraints_ok_saved _ _ k) by exact Hk.
      apply (restore_writable
               (set_mail_verified false (set_unverified_email new self))).
      exact Hc.
  - unfold stored_row, pending_codes. cbn [db users codes memberships].
    rewrite Hk, (saved_rows_find _ k) by exact Hk.
    rewrite (pending_deleted self) by reflexivity.
    rewrite !(pending_deleted_other self) by (try reflexivity; discriminate).
    rewrite !(pending_reissued_other self self k)
      by (try reflexivity; discriminate).
    repeat split.
Qed.

Lemma update_email_restore_email_round_trip_witness :
  pk ann = Some 1
  /\ constraints_ok (set_unverified_email (Some "ann@y.org") ann)
       (users (db two_world)) = true
  /\ mail_verified ann = true
  /\ unverified_email ann = email ann
  /\ exists u1 w1 w2,
       update_email (Some "ann@y.org") ann two_world = (Ok u1, w1)
       /\ restore_email u1 w1 = (Ok ann, w2)
       /\ stored_row ann w2 = Some (to_row ann)
       /\ pending_codes ann EMAIL_VERIFICATION w2 = []
       /\ pending_codes ann PASSWORD_RESET w2
          = pending_codes ann PASSWORD_RESET two_world
       /\ pending_codes ann ACCOUNT_DELETE w2
          = pending_codes ann ACCOUNT_DELETE two_world
       /\ memberships (db w2) = memberships (db two_world).
Proof.
  split; [reflexivity|]. split; [reflexivity|]. split; [reflexivity|].
  split; [reflexivity|].
  apply (update_email_restore_email_round_trip (Some "ann@y.org") ann
           two_world 1); reflexivity.
Defined.

(** ** The unverified and the ignored *)

(** X16: after verify_mail succeeds on a saved account, the row of the
    account is among those unverified_or_ignored returns exactly when its
    email, now the verified one, is on the list of ignored addresses. *)
Theorem verified_account_listed_iff_ignored
    (self : User) (w : World) (k : nat) (u' : User) (w' : World)
    (ignored_addresses : list string) (rs : list User) :
  pk self = Some k ->
  verify_mail self w = (Ok u', w') ->
  fst (unverified_or_ignored ignored_addresses w') = Ok rs ->
  (In (to_row u') rs <-> email_in ignored_addresses u' = true).
Proof.
  intros Hk Hv Hl.
  destruct (constraints_ok (set_email (unverified_email self) self)
              (users (db w))) eqn:Hc.
  - rewrite (verify_mail_run self w k Hk Hc) in Hv. injection Hv as <- <-.
    unfold unverified_or_ignored in Hl. cbn [fst db users] in Hl.
    injection Hl as <-.
    rewrite filter_In. cbn [mail_verified to_row set_mail set_mail_verified
      negb orb].
    split; [intros [_ H]; exact H|]. intro H. split; [|exact H].
    pose proof (saved_rows_find
                  (set_mail_verified true
                     (set_email (unverified_email self) self))
                  k (users (db w)) Hk) as Hf.
    apply find_some in Hf as [Hin _]. exact Hin.
  - pose proof (verify_mail_fail self w Hc) as Hf. rewrite Hv in Hf.
    discriminate.
Qed.

Lemma verified_account_listed_iff_ignored_witness :
  pk ann = Some 1
  /\ verify_mail ann two_world
     = (Ok ann, snd (verify_mail ann two_world))
  /\ fst (unverified_or_ignored ["ann@x.com"] (snd (verify_mail ann two_world)))
     = Ok [ann; bob]
  /\ (In (to_row ann) [ann; bob] <-> email_in ["ann@x.com"] ann = true).
Proof.
  assert (Hv : verify_mail ann two_world
               = (Ok ann, snd (verify_mail ann two_world)))
    by (vm_compute; reflexivity).
  assert (Hl : fst (unverified_or_ignored ["ann@x.com"]
                      (snd (verify_mail ann two_world))) = Ok [ann; bob])
    by (vm_compute; reflexivity).
  split; [reflexivity|]. split; [exact Hv|]. split; [exact Hl|].
  apply (verified_account_listed_iff_ignored ann two_world 1 ann
           (snd (verify_mail ann two_world)) ["ann@x.com"] [ann; bob]);
    [reflexivity | exact Hv | exact Hl].
Defined.

(** ** Normalization *)

Lemma is_space_lower_char (c : ascii) :
  Text.is_space (Text.lower_char c) = Text.is_space c.
Proof. destruct c as [[] [] [] [] [] [] [] []]; reflexivity. Qed.

Lemma lower_char_idem (c : ascii) :
  Text.lower_char (Text.lower_char c) = Text.lower_char c.
Proof. destruct c as [[] [] [] [] [] [] [] []]; reflexivity. Qed.

Lemma lower_char_at (c : ascii) :
  Ascii.eqb (Text.lower_char c) "@" = Ascii.eqb c "@".
Proof. destruct c as [[] [] [] [] [] [] [] []]; reflexivity. Qed.

Lemma lower_idem (s : string) : Text.lower (Text.lower s) = Text.lower s.
Proof.
  induction s as [|c s IH]; simpl; auto.
  now rewrite lower_char_idem, IH.
Qed.

Lemma rsplit_at_lower_none (s : string) :
  Text.rsplit_at s = None -> Text.rsplit_at (Text.lower s) = None.
Proof.
  induction s as [|c s IH]; simpl; auto.
  destruct (Text.rsplit_at s) as [[a b]|]; [discriminate|].
  rewrite IH by reflexivity. rewrite lower_char_at.
  destruct (Ascii.eqb c "@"); [discriminate | reflexivity].
Qed.

Lemma rsplit_at_rest_none (s a b : string) :
  Text.rsplit_at s = Some (a, b) -> Text.rsplit_at b = None.
Proof.
  revert a b. induction s as [|c s IH]; simpl; intros a b H.
  - discriminate.
  - destruct (Text.rsplit_at s) as [[a' b']|] eqn:E.
    + injection H as _ <-. now apply (IH a').
    + destruct (Ascii.eqb c "@"); [|discriminate].
      injection H as _ <-. exact E.
Qed.

Lemma rsplit_at_join (a b : string) :
  Text.rsplit_at b = None ->
  Text.rsplit_at (a ++ "@" ++ b)%string = Some (a, b).
Proof.
  intro Hb. induction a as [|c a IH]; simpl.
  - now rewrite Hb.
  - simpl in IH. now rewrite IH.
Qed.

Lemma same_spaces_lower (s : string) : same_spaces s (Text.lower s).
Proof.
  induction s as [|c s IH]; simpl; constructor; auto.
  now rewrite is_space_lower_char.
Qed.

Lemma same_spaces_join (a b b' : string) :
  same_spaces b b' ->
  same_spaces (a ++ "@" ++ b)%string (a ++ "@" ++ b')%string.
Proof.
  intro H. induction a as [|c a IH]; simpl.
  - constructor; auto.
  - constructor; auto.
Qed.

Lemma lstrip_length (s : string) :
  String.length (Text.lstrip s) <= String.length s.
Proof.
  induction s as [|c s IH]; simpl; auto.
  destruct (Text.is_space c); simpl; lia.
Qed.

Lemma rstrip_length (s : string) :
  String.length (Text.rstrip s) <= String.length s.
Proof.
  induction s as [|c s IH]; simpl; auto.
  destruct (Text.rstrip s) as [|c' t'].
  - destruct (Text.is_space c); simpl; lia.
  - simpl in *. lia.
Qed.

Lemma lstrip_fixed (s : string) :
  String.length (Text.lstrip s) = String.length s -> Text.lstrip s = s.
Proof.
  destruct s as [|c s]; simpl; auto.
  destruct (Text.is_space c); auto.
  intro H. pose proof (lstrip_length s). lia.
Qed.

Lemma strip_fixed (s : string) :
  Text.strip s = s -> Text.lstrip s = s /\ Text.rstrip s = s.
Proof.
  unfold Text.strip. intro H.
  assert (Hl : Text.lstrip s = s).
  { apply lstrip_fixed.
    pose proof (rstrip_length (Text.lstrip s)) as H1.
    pose proof (lstrip_length s) as H2.
    rewrite H in H1. lia. }
  split; [exact Hl|]. now rewrite Hl in H.
Qed.

Lemma lstrip_same_spaces (s s' : string) :
  same_spaces s s' -> Text.lstrip s = s -> Text.lstrip s' = s'.
Proof.
  intros H Hs. destruct H as [|c c' t t' Hc Ht]; auto.
  simpl in *. rewrite <- Hc.
  destruct (Text.is_space c); auto.
  pose proof (lstrip_length t) as Hlen. rewrite Hs in Hlen. simpl in Hlen.
  lia.
Qed.

Lemma rstrip_same_spaces (s s' : string) :
  same_spaces s s' -> Text.rstrip s = s -> Text.rstrip s' = s'.
Proof.
  intros H. induction H as [|c c' t t' Hc Ht IH]; auto.
  simpl. intro Hs.
  destruct (Text.rstrip t) as [|c0 t0] eqn:Et.
  - destruct (Text.is_space c) eqn:Ec; [discriminate|].
    injection Hs as <-. inversion Ht; subst. simpl.
    now rewrite <- Hc.
  - injection Hs as Hs. specialize (IH Hs). rewrite IH.
    rewrite <- Hs in Ht. inversion Ht; subst. reflexivity.
Qed.

Lemma strip_same_spaces (s s' : string) :
  same_spaces s s' -> Text.strip s = s -> Text.strip s' = s'.
Proof.
  intros H Hs. apply strip_fixed in Hs as [Hl Hr].
  unfold Text.strip.
  rewrite (lstrip_same_spaces s s' H Hl).
  apply (rstrip_same_spaces s s' H Hr).
Qed.

Lemma rstrip_idem (s : string) :
  Text.rstrip (Text.rstrip s) = Text.rstrip s.
Proof.
  induction s as [|c s IH]; simpl; auto.
  destruct (Text.rstrip s) as [|c0 t0] eqn:Et.
  - destruct (Text.is_space c) eqn:Ec; simpl; auto. now rewrite Ec.
  - simpl. simpl in IH. rewrite IH. reflexivity.
Qed.

Lemma lstrip_head (s : string) :
  Text.lstrip s = EmptyString
  \/ exists c t, Text.lstrip s = String c t /\ Text.is_space c = false.
Proof.
  induction s as [|c s IH]; simpl; auto.
  destruct (Text.is_space c) eqn:Ec; auto.
  right. now exists c, s.
Qed.

Lemma rstrip_keeps_head (c : ascii) (t : string) :
  Text.is_space c = false ->
  exists t', Text.rstrip (String c t) = String c t'.
Proof.
  intro Hc. simpl. destruct (Text.rstrip t) as [|c0 t0].
  - rewrite Hc. now exists EmptyString.
  - now exists (String c0 t0).
Qed.

Lemma strip_idem (s : string) : Text.strip (Text.strip s) = Text.strip s.
Proof.
  unfold Text.strip.
  destruct (lstrip_head s) as [E | [c [t [E Hc]]]]; rewrite E.
  - reflexivity.
  - destruct (rstrip_keeps_head c t Hc) as [t' Ht].
    assert (Hl : Text.lstrip (Text.rstrip (String c t))
                 = Text.rstrip (String c t)).
    { rewrite Ht. simpl. now rewrite Hc. }
    rewrite Hl. apply rstrip_idem.
Qed.

(** X18: on ASCII text normalizing is idempotent: an address that came
    out of normalize_email, and so out of _validate_email, is returned
    unchanged when it is normalized or validated again. *)
Theorem normalize_email_idempotent (e : string) (w : World) :
  Text.is_ascii e = true ->
  normalize_email (normalize_email e) = normalize_email e
  /\ _validate_email (Some (normalize_email e)) w
     = _validate_email (Some e) w.
Proof.
  intros _.
  assert (H : normalize_email (normalize_email e) = normalize_email e).
  { unfold normalize_email at 2 3.
    destruct (Text.rsplit_at (Text.strip e)) as [[a b]|] eqn:E.
    - pose proof (rsplit_at_parts _ _ _ E) as Hparts.
      pose proof (rsplit_at_rest_none _ _ _ E) as Hb.
      assert (Hs : Text.strip (a ++ "@" ++ Text.lower b)%string
                   = (a ++ "@" ++ Text.lower b)%string).
      { apply (strip_same_spaces (a ++ "@" ++ b)%string).
        - apply same_spaces_join, same_spaces_lower.
        - rewrite <- Hparts. apply strip_idem. }
      unfold normalize_email. rewrite Hs.
      rewrite (rsplit_at_join a (Text.lower b))
        by now apply rsplit_at_lower_none.
      now rewrite lower_idem.
    - unfold normalize_email. now rewrite E. }
  split; [exact H|].
  unfold _validate_email, ret. now rewrite H.
Qed.

Lemma normalize_email_idempotent_witness :
  Text.is_ascii " Carl@X.COM " = true
  /\ normalize_email " Carl@X.COM " = "Carl@x.com"
  /\ normalize_email (normalize_email " Carl@X.COM ")
     = normalize_email " Carl@X.COM "
  /\ _validate_email (Some (normalize_email " Carl@X.COM ")) empty_world
     = _validate_email (Some " Carl@X.COM ") empty_world.
Proof.
  split; [reflexivity|]. split; [reflexivity|].
  apply (normalize_email_idempotent " Carl@X.COM " empty_world).
  reflexivity.
Defined.

(** ** The welcome mail *)

(** X19: whenever _create_user succeeds, it has handed the mailer exactly
    one mail, the verification mail prepared for the created account, and
    the code row in that mail is the one pending EMAIL_VERIFICATION code
    of the account. *)
Theorem _create_user_mails_the_pending_code
    (email0 password0 display_name0 : option string) (is_active0 : bool)
    (extra : ExtraFields) (w : World) (u : User) (w' : World) :
  _create_user email0 password0 display_name0 is_active0 extra w = (Ok u, w') ->
  exists c,
    pending_codes u EMAIL_VERIFICATION w' = [c]
    /\ pk u = Some (vc_user c)
    /\ vc_type c = EMAIL_VERIFICATION
    /\ outbox w' = outbox w ++ [mkMail "mailverification" u (CodeRow c)].
Proof.
  intro H. destruct (_create_user_inv _ _ _ _ _ _ _ _ H)
    as [e [_ [Hu [_ [_ [Hcodes Hout]]]]]].
  exists (mkCode (new_key extra (users (db w))) EMAIL_VERIFICATION (tokens w)).
  assert (Hk : pk u = Some (new_key extra (users (db w))))
    by (subst u; reflexivity).
  split; [|split; [exact Hk | split; [reflexivity | exact Hout]]].
  unfold pending_codes. rewrite Hcodes.
  now apply pending_reissued.
Qed.

Lemma _create_user_mails_the_pending_code_witness :
  let r := _create_user (Some "Carl@X.com") (Some "pw") (Some "Carl") true
             no_extra_fields two_world in
  let u := created "Carl@X.com" (Some "pw") (Some "Carl") true
             no_extra_fields 3 in
  r = (Ok u, snd r)
  /\ exists c,
       pending_codes u EMAIL_VERIFICATION (snd r) = [c]
       /\ pk u = Some (vc_user c)
       /\ vc_type c = EMAIL_VERIFICATION
       /\ outbox (snd r)
          = outbox two_world ++ [mkMail "mailverification" u (CodeRow c)].
Proof.
  intros r u.
  assert (Hr : r = (Ok u, snd r)) by (vm_compute; reflexivity).
  split; [exact Hr|].
  apply (_create_user_mails_the_pending_code (Some "Carl@X.com") (Some "pw")
           (Some "Carl") true no_extra_fields two_world u (snd r)).
  exact Hr.
Defined.

(** ** Changing the email, to the end *)

Lemma filter_replaced (f : User -> bool) (k : nat) (x : User)
    (rows : list User) :
  (forall r, In r rows -> same_pk k r = false -> f r = false) ->
  f x = true ->
  filter f (map (fun r => if same_pk k r then x else r) rows)
  = map (fun _ => x) (filter (same_pk k) rows).
Proof.
  intros Hother Hx. induction rows as [|r rows IH]; simpl; auto.
  assert (IH' : filter f (map (fun r => if same_pk k r then x else r) rows)
                = map (fun _ => x) (filter (same_pk k) rows)).
  { apply IH. intros r0 Hin. apply Hother. now right. }
  destruct (same_pk k r) eqn:E; simpl.
  - now rewrite Hx, IH'.
  - rewrite (Hother r) by (auto; now left). exact IH'.
Qed.

(** X20: the change of address, carried through.  For a saved account
    stored in one row, ASCII addresses throughout, and a new address of at
    most 254 characters that no other row holds up to case, update_email
    followed by verify_mail succeeds; the new address, stored as it was
    given, is then the canonical email, the account is verified without
    pending code, and the lookup by natural key of the upper-cased new
    address returns the row of the account. *)
Theorem changed_email_is_found
    (new : string) (self : User) (w : World) (k : nat) (r0 : User) :
  Text.is_ascii new = true ->
  ascii_emails w ->
  pk self = Some k ->
  constraints_ok (set_unverified_email (Some new) self) (users (db w))
  = true ->
  filter (same_pk k) (users (db w)) = [r0] ->
  (forall r, In r (users (db w)) -> same_pk k r = false ->
             email_iexact new r = false) ->
  exists u1 w1 u2 w2,
    update_email (Some new) self w = (Ok u1, w1)
    /\ verify_mail u1 w1 = (Ok u2, w2)
    /\ email u2 = Some new
    /\ mail_verified u2 = true
    /\ count_codes u2 EMAIL_VERIFICATION w2 = 0
    /\ get_by_natural_key (Text.upper new) w2 = (Ok (to_row u2), w2).
Proof.
  intros _ _ Hk Hc Hone Hother.
  pose proof (update_email_run (Some new) self w k Hk Hc) as H1.
  cbn zeta in H1.
  set (u1 := set_mail_verified false
               (set_unverified_email (Some new) self)) in *.
  set (u2 := set_mail_verified true (set_email (unverified_email u1) u1)).
  apply constraints_ok_parts in Hc as [Hl Hi].
  assert (Hd : is_some (display_name self) = true).
  { unfold integrity_ok in Hi. now apply andb_true_iff in Hi as [Hd _]. }
  assert (Hc2 : constraints_ok (set_email (unverified_email u1) u1)
                  (users (db w)) = true).
  { unfold constraints_ok. apply andb_true_iff. split.
    - clear -Hl. unfold u1, set_email, set_mail_verified,
        set_unverified_email in *. by_columns.
    - unfold integrity_ok.
      cbn [display_name set_email u1 set_mail_verified set_unverified_email].
      rewrite Hd. simpl. apply negb_true_iff.
      unfold email_taken.
      cbn [email pk set_email u1 set_mail_verified set_unverified_email
           unverified_email].
      destruct (existsb _ (users (db w))) eqn:E; auto.
      apply existsb_exists in E as [r [Hin Hr]].
      apply andb_true_iff in Hr as [Hp He].
      assert (Hs : same_pk k r = false).
      { unfold same_pk. rewrite Hk in Hp. now apply negb_true_iff in Hp. }
      specialize (Hother r Hin Hs). unfold email_iexact in Hother.
      destruct (email r) as [e'|]; simpl in He; [|discriminate].
      apply String.eqb_eq in He. subst e'.
      unfold Text.iexact in Hother. rewrite String.eqb_refl in Hother.
      discriminate. }
  assert (H2 : verify_mail u1 (snd (update_email (Some new) self w))
               = (Ok u2, snd (verify_mail u1
                                (snd (update_email (Some new) self w))))).
  { rewrite H1. cbn [snd].
    rewrite (verify_mail_run u1 _ k); [reflexivity | exact Hk |].
    cbn [db users]. rewrite (constraints_ok_saved _ _ k) by exact Hk.
    exact Hc2. }
  exists u1, (snd (update_email (Some new) self w)), u2,
    (snd (verify_mail u1 (snd (update_email (Some new) self w)))).
  split; [rewrite H1; reflexivity|]. split; [exact H2|].
  split; [reflexivity|]. split; [reflexivity|].
  rewrite H1. cbn [snd].
  rewrite (verify_mail_run u1 _ k);
    [| exact Hk
     | cbn [db users]; rewrite (constraints_ok_saved _ _ k) by exact Hk;
       exact Hc2].
  fold u2. cbn [snd db users codes].
  split.
  - unfold count_codes, pending_codes. cbn [db codes].
    now rewrite pending_deleted.
  - unfold get_by_natural_key. cbn [db users].
    rewrite (saved_rows_twice u1 u2 k) by reflexivity || exact Hk.
    assert (Hex : existsb (same_pk k) (users (db w)) = true).
    { apply existsb_exists. exists r0.
      assert (Hin : In r0 (filter (same_pk k) (users (db w))))
        by (rewrite Hone; now left).
      now apply filter_In in Hin. }
    unfold saved_rows. change (pk u2) with (pk self). rewrite Hk, Hex.
    rewrite (filter_replaced _ k).
    + rewrite Hone. reflexivity.
    + intros r Hin Hs. specialize (Hother r Hin Hs).
      unfold email_iexact in *. destruct (email r); auto.
      now rewrite iexact_upper.
    + unfold email_iexact.
      cbn [email to_row set_mail set_photo u2 set_mail_verified set_email u1
           set_unverified_email unverified_email].
      unfold Text.iexact. rewrite upper_idem. apply String.eqb_refl.
Qed.

Lemma changed_email_is_found_witness :
  Text.is_ascii "Ann@Y.org" = true
  /\ ascii_emails two_world
  /\ pk ann = Some 1
  /\ constraints_ok (set_unverified_email (Some "Ann@Y.org") ann)
       (users (db two_world)) = true
  /\ filter (same_pk 1) (users (db two_world)) = [ann]
  /\ (forall r, In r (users (db two_world)) -> same_pk 1 r = false ->
                email_iexact "Ann@Y.org" r = false)
  /\ exists u1 w1 u2 w2,
       update_email (Some "Ann@Y.org") ann two_world = (Ok u1, w1)
       /\ verify_mail u1 w1 = (Ok u2, w2)
       /\ email u2 = Some "Ann@Y.org"
       /\ mail_verified u2 = true
       /\ count_codes u2 EMAIL_VERIFICATION w2 = 0
       /\ get_by_natural_key (Text.upper "Ann@Y.org") w2
          = (Ok (to_row u2), w2).
Proof.
  assert (Ha : ascii_emails two_world).
  { intros r e [<-|[<-|[]]] H; injection H as <-; reflexivity. }
  assert (Ho : forall r, In r (users (db two_world)) -> same_pk 1 r = false ->
                         email_iexact "Ann@Y.org" r = false).
  { intros r [<-|[<-|[]]] H; [discriminate | reflexivity]. }
  split; [reflexivity|]. split; [exact Ha|].
  split; [reflexivity|]. split; [reflexivity|]. split; [reflexivity|].
  split; [exact Ho|].
  apply (changed_email_is_found "Ann@Y.org" ann two_world 1 ann);
    [reflexivity | exact Ha | reflexivity | reflexivity | reflexivity
     | exact Ho].
Defined.
